(** * FitScore frontend: score presentation, API client and dashboard aggregation

    A shallow embedding of the TypeScript sources of the FitScore frontend
    (the dashboard component, the resume-analysis component, the job-match
    card and the fetch-based API client), followed by the properties of the
    specification that concern them. *)

From Stdlib Require Import QArith Lqa.
From stdpp Require Import base option list strings pretty gmap fin_maps.

Local Open Scope string_scope.
Local Open Scope list_scope.

(** * JavaScript numbers

    A [number] is an IEEE double.  No arithmetic is performed on scores, only
    comparisons, [Math.min], [Math.max] and truthiness tests, all of which are
    exact; every finite double is a rational, so finite values are carried as
    [Q] and the three special values are explicit. *)

Inductive number : Type :=
  | NaN
  | NegInfinity
  | Finite (q : Q)
  | Infinity.

Coercion Finite : Q >-> number.
Bind Scope Q_scope with number.

(** [a >= b] of JavaScript: false as soon as one side is [NaN]. *)
Definition js_ge (a b : number) : bool :=
  match a, b with
  | NaN, _ | _, NaN => false
  | _, NegInfinity => true
  | Infinity, _ => true
  | NegInfinity, _ => false
  | Finite _, Infinity => false
  | Finite x, Finite y => Qle_bool y x
  end.

(** [a < b] of JavaScript. *)
Definition js_lt (a b : number) : bool :=
  match a, b with
  | NaN, _ | _, NaN => false
  | _, _ => negb (js_ge a b)
  end.

(** [Math.max(a, b)] and [Math.min(a, b)]: [NaN] is absorbing. *)
Definition Math_max (a b : number) : number :=
  match a, b with
  | NaN, _ | _, NaN => NaN
  | _, _ => if js_ge a b then a else b
  end.

Definition Math_min (a b : number) : number :=
  match a, b with
  | NaN, _ | _, NaN => NaN
  | _, _ => if js_ge b a then a else b
  end.

(** Truthiness of a number: [0], [-0] and [NaN] are falsy. *)
Definition truthy (n : number) : bool :=
  match n with
  | NaN => false
  | Finite q => negb (Qeq_bool q 0)
  | _ => true
  end.

(** Truthiness of a string: only the empty string is falsy. *)
Definition nonempty (s : string) : bool := negb (String.eqb s "").

(** [a || b] where [a] and [b] are numbers or [undefined]. *)
Definition js_or (a b : option number) : option number :=
  match a with
  | Some n => if truthy n then Some n else b
  | None => b
  end.

(** [a || d] where the right operand is a number literal. *)
Definition js_or_default (a : option number) (d : number) : number :=
  match a with
  | Some n => if truthy n then n else d
  | None => d
  end.

(** Two numbers denote the same value. *)
Definition same_number (a b : number) : Prop :=
  match a, b with
  | NaN, NaN | NegInfinity, NegInfinity | Infinity, Infinity => True
  | Finite x, Finite y => Qeq x y
  | _, _ => False
  end.

(** The order of the extended reals, read directly off the value: [t <= n],
    [n < t] and [lo <= n <= hi] for rational bounds.  [NaN] satisfies none. *)
Definition at_least (t : Q) (n : number) : Prop :=
  match n with
  | Finite q => (t <= q)%Q
  | Infinity => True
  | _ => False
  end.

Definition below (t : Q) (n : number) : Prop :=
  match n with
  | Finite q => (q < t)%Q
  | NegInfinity => True
  | _ => False
  end.

Definition between (lo hi : Q) (n : number) : Prop :=
  match n with
  | Finite q => (lo <= q)%Q /\ (q <= hi)%Q
  | _ => False
  end.

(** * Data transfer objects (lib/types) *)

Module Types.

(** lib/types/analysis.ts.  The two keyword lists of [MatchAnalysis] are read
    with [?.] and [&&] by the card, so they may be absent. *)
Record AIAnalysisScores := {
  overall_score : number;
  ats_compatibility : number;
  keyword_optimization : number;
  structure_quality : number;
  content_relevance : number;
  experience_alignment : number;
  ai_skills_match : number;          (* skills_match *)
  education_relevance : number
}.

Inductive Priority := low | medium | high | critical.

Inductive Category :=
  skills | experience | education | formatting | keywords | content.

Record ImprovementSuggestion := {
  category : Category;
  priority : Priority;
  suggestion : string;
  impact_score : number
}.

Record MatchAnalysis := {
  skills_match : number;
  experience_match : number;
  education_match : number;
  keyword_coverage : number;
  missing_keywords : option (list string);
  matched_keywords : option (list string);
  improvement_priority : Priority
}.

(** [recommendations] is read with [?.] by the card, so it may be absent. *)
Record ResumeJobMatchResult := {
  match_score : number;
  detailed_analysis : MatchAnalysis;
  recommendations : option (list ImprovementSuggestion);
  ai_insights : string;
  confidence_score : number
}.

(** lib/types/resume.ts, the fields the components read. *)
Record ProcessedResume := {
  resume_id : string;
  ai_analysis_scores : option AIAnalysisScores;
  ats_compatibility_score : option number
}.

(** lib/types/job.ts, the field the aggregation reads. *)
Record ProcessedJob := {
  job_id : string;
  job_title : string
}.

(** lib/types/matching.ts *)
Record MatchAnalysisRequest := {
  req_resume_id : string;            (* resume_id *)
  req_job_id : string;               (* job_id *)
  include_recommendations : option bool;
  include_ai_insights : option bool
}.

Record BulkMatchRequest := {
  bulk_resume_id : string;           (* resume_id *)
  job_ids : option (list string);
  max_jobs : option number;
  min_match_score : option number;
  include_detailed_analysis : option bool
}.

End Types.
Import Types.

(** * components/dashboard/resume-analysis.tsx *)

Module ResumeAnalysis.

Definition getScoreColor (value : number) : string :=
  if js_ge value 80 then "text-green-500"
  else if js_ge value 60 then "text-yellow-500"
  else "text-red-500".

Definition getScoreText (value : number) : string :=
  if js_ge value 90 then "Excellent"
  else if js_ge value 80 then "Very Good"
  else if js_ge value 70 then "Good"
  else if js_ge value 60 then "Fair"
  else "Needs Improvement".

(** [aiScores?.overall_score || score || 0] *)
Definition overallScore
    (resumeAnalysis : option ProcessedResume) (score : option number) : number :=
  let aiScores := resumeAnalysis ≫= ai_analysis_scores in
  js_or_default (js_or (overall_score <$> aiScores) score) 0.

(** [analysisData?.ats_compatibility_score || 0] *)
Definition atsScore (resumeAnalysis : option ProcessedResume) : number :=
  js_or_default (resumeAnalysis ≫= ats_compatibility_score) 0.

(** Class of the overall score bar. *)
Definition barColor (overallScore : number) : string :=
  if js_ge overallScore 80 then "bg-green-500"
  else if js_ge overallScore 60 then "bg-yellow-500"
  else "bg-red-500".

(** Width of the overall score bar, in percent:
    [Math.min(100, Math.max(0, overallScore))]. *)
Definition barWidth (overallScore : number) : number :=
  Math_min 100 (Math_max 0 overallScore).

End ResumeAnalysis.

(** * components/dashboard/job-match-card.tsx *)

Module JobMatchCard.

Definition getMatchColor (score : number) : string :=
  if js_ge score 80 then "text-green-500"
  else if js_ge score 60 then "text-yellow-500"
  else "text-red-500".

Definition getMatchBadgeColor (score : number) : string :=
  if js_ge score 80 then "bg-green-500"
  else if js_ge score 60 then "bg-yellow-500"
  else "bg-red-500".

Definition getMatchText (score : number) : string :=
  if js_ge score 90 then "Excellent Match"
  else if js_ge score 80 then "Very Good Match"
  else if js_ge score 70 then "Good Match"
  else if js_ge score 60 then "Fair Match"
  else "Needs Improvement".

(** [r.priority === 'critical' || r.priority === 'high'] *)
Definition isPriority (r : ImprovementSuggestion) : bool :=
  match priority r with
  | critical | high => true
  | _ => false
  end.

(** [matchResult.recommendations?.filter(...) || []] *)
Definition prioritySuggestions
    (matchResult : ResumeJobMatchResult) : list ImprovementSuggestion :=
  match recommendations matchResult with
  | Some rs => List.filter isPriority rs
  | None => []
  end.

(** What the collapsed card shows of a match: the score badge, its label,
    and the priority-issues badge, rendered only when the count is
    positive. *)
Record Header := {
  badgeColor : string;
  badgeScore : number;
  badgeText : string;
  priorityIssues : option nat
}.

Definition header (matchResult : ResumeJobMatchResult) : Header :=
  let n := length (prioritySuggestions matchResult) in
  {| badgeColor := getMatchBadgeColor (match_score matchResult);
     badgeScore := match_score matchResult;
     badgeText := getMatchText (match_score matchResult);
     priorityIssues := if (0 <? n)%nat then Some n else None |}.

End JobMatchCard.

(** * Promises, exceptions and the network

    An asynchronous computation is a state transformer that either fulfils
    with a value or rejects with a reason; state written before a rejection
    stays written. *)

Inductive exn : Type :=
  | Error (message : string)           (* new Error(message) *)
  | TypeError (message : string)       (* fetch's own rejection *)
  | SyntaxError (input : string).      (* JSON parsing of [input] failed *)

Definition ST (S A : Type) : Type := S → (exn + A) * S.

#[global] Instance ST_ret {S} : MRet (ST S) := λ A a s, (inr a, s).

#[global] Instance ST_bind {S} : MBind (ST S) := λ A B f m s,
  match m s with
  | (inl e, s') => (inl e, s')
  | (inr a, s') => f a s'
  end.

#[global] Instance ST_fmap {S} : FMap (ST S) := λ A B f m s,
  match m s with
  | (inl e, s') => (inl e, s')
  | (inr a, s') => (inr (f a), s')
  end.

Definition throw {S A} (e : exn) : ST S A := λ s, (inl e, s).

(** [p.catch(h)], and [try { p } catch (e) { h e }]. *)
Definition catch {S A} (p : ST S A) (h : exn → ST S A) : ST S A := λ s,
  match p s with
  | (inl e, s') => h e s'
  | (inr a, s') => (inr a, s')
  end.

(** [try { p } catch (e) { h e } finally { f }] *)
Definition try_catch_finally {S A}
    (p : ST S A) (h : exn → ST S A) (f : ST S ()) : ST S A := λ s,
  let '(r, s1) := catch p h s in
  match f s1 with
  | (inl e, s2) => (inl e, s2)
  | (inr _, s2) => (r, s2)
  end.

(** Outcome of a computation started in state [s]. *)
Definition outcome {S A} (p : ST S A) (s : S) : exn + A := (p s).1.


(** ** HTTP *)

Record File := { file_name : string; file_content : string }.

Inductive FormValue := FormFile (f : File) | FormString (s : string).

Inductive Body :=
  | NoBody
  | TextBody (s : string)
  | FormData (entries : list (string * FormValue)).

Record Request := {
  url : string;
  method : string;
  headers : list (string * string);
  body : Body
}.

Record Response := { status : Z; text : string }.

(** [response.ok] *)
Definition ok (response : Response) : bool :=
  (200 <=? status response)%Z && (status response <=? 299)%Z.

(** Values handed to [JSON.stringify]. *)
#[warnings="-register-all"]
Inductive JSON :=
  | JUndefined
  | JNull
  | JBool (b : bool)
  | JNumber (n : number)
  | JString (s : string)
  | JArray (items : list JSON)
  | JObject (fields : list (string * JSON)).

(** What the runtime and the deployment provide. *)
Class Platform := {
  (** the reply to the request issued after [n] earlier ones *)
  network : nat → Request → exn + Response;
  (** position, in event-loop order, at which the [i]-th promise handed to
      [Promise.all] settles *)
  settle_rank : nat → nat;
  JSON_stringify : JSON → string;
  Number_toString : number → string;
  URLSearchParams_toString : list (string * string) → string;
  (** [process.env.NEXT_PUBLIC_API_URL || 'http://localhost:8001'] *)
  API_URL : string
}.

(** [response.json()] typed to a DTO: [None] when the body is not JSON. *)
Class FromJSON (T : Type) := json_parse : string → option T.

Abbreviation Net := (ST (list Request)).

Section Runtime.
Context {platform : Platform}.

(** A call is appended to the log of issued requests and answered by the
    network. *)
Definition fetch (request : Request) : Net Response := λ log,
  (network (length log) request, log ++ [request]).

Definition GET (u : string) : Request :=
  {| url := u; method := "GET"; headers := []; body := NoBody |}.

Definition response_text (response : Response) : Net string :=
  mret (text response).

Definition response_json {T} `{FromJSON T} (response : Response) : Net T :=
  match json_parse (text response) with
  | Some data => mret data
  | None => throw (SyntaxError (text response))
  end.

(** ** Promise.all

    The promises handed to [Promise.all] below start their single request
    when they are created, in array order, and write no other state, so
    running them one after the other yields the same log and the same
    settled values.  [Promise.all] fulfils with the values in array order
    and otherwise rejects with the reason of the promise that rejected
    first. *)
Fixpoint settle_all {S A} (ps : list (ST S A)) (s : S) : list (exn + A) * S :=
  match ps with
  | [] => ([], s)
  | p :: ps' =>
      let '(r, s1) := p s in
      let '(rs, s2) := settle_all ps' s1 in
      (r :: rs, s2)
  end.

Definition earlier (a b : nat * exn) : nat * exn :=
  if (b.1 <? a.1)%nat then b else a.

Fixpoint first_rejection {A} (i : nat) (rs : list (exn + A)) : option (nat * exn) :=
  match rs with
  | [] => None
  | inr _ :: rs' => first_rejection (S i) rs'
  | inl e :: rs' =>
      match first_rejection (S i) rs' with
      | Some b => Some (earlier (settle_rank i, e) b)
      | None => Some (settle_rank i, e)
      end
  end.

Definition values {A} (rs : list (exn + A)) : list A :=
  omap (λ r, match r with inr a => Some a | inl _ => None end) rs.

Definition Promise_all {S A} (ps : list (ST S A)) : ST S (list A) := λ s,
  let '(rs, s') := settle_all ps s in
  match first_rejection 0 rs with
  | Some (_, e) => (inl e, s')
  | None => (inr (values rs), s')
  end.

Definition erase {A} (r : exn + A) : exn + () :=
  match r with inl e => inl e | inr _ => inr () end.

(** [Promise.all([a, b, c])] on a tuple of three. *)
Definition Promise_all3 {S A B C}
    (a : ST S A) (b : ST S B) (c : ST S C) : ST S (A * B * C) := λ s,
  let '(ra, s1) := a s in
  let '(rb, s2) := b s1 in
  let '(rc, s3) := c s2 in
  match first_rejection 0 [erase ra; erase rb; erase rc], ra, rb, rc with
  | Some (_, e), _, _, _ => (inl e, s3)
  | None, inr x, inr y, inr z => (inr (x, y, z), s3)
  | None, inl e, _, _ | None, _, inl e, _ | None, _, _, inl e => (inl e, s3)
  end.

End Runtime.

(** * lib/api: the fetch wrappers *)

(** The response shapes the client only passes through, and the JSON views of
    all response shapes. *)
Class Schemas := {
  JobUploadResponse : Type;
  JobSearchResult : Type;
  ImprovedResult : Type;
  ResumeUploadResponse : Type;
  MatchHistory : Type;
  DashboardData : Type;
  BulkAnalysisResult : Type;
  ComparisonAnalysis : Type;
  JobUploadResponse_json :: FromJSON JobUploadResponse;
  JobSearchResult_json :: FromJSON JobSearchResult;
  ImprovedResult_json :: FromJSON ImprovedResult;
  ResumeUploadResponse_json :: FromJSON ResumeUploadResponse;
  MatchHistory_json :: FromJSON MatchHistory;
  DashboardData_json :: FromJSON DashboardData;
  BulkAnalysisResult_json :: FromJSON BulkAnalysisResult;
  ComparisonAnalysis_json :: FromJSON ComparisonAnalysis;
  ProcessedJob_json :: FromJSON ProcessedJob;
  ProcessedResume_json :: FromJSON ProcessedResume;
  ResumeJobMatchResult_json :: FromJSON ResumeJobMatchResult;
  (** the untyped [data] of [getResumeJobs]: its [jobs] property *)
  jobs_json :: FromJSON (option (list ProcessedJob));
  (** the untyped [data] of [uploadJobDescriptions]: its [job_id] property *)
  job_id_json :: FromJSON (list string)
}.

Module Api.

(** A property of a [JobSearchFilters] object, as [Object.entries] sees it. *)
Inductive FilterValue :=
  | FUndefined
  | FNull
  | FText (s : string)
  | FNum (n : number)
  | FList (items : list string).




Definition optional {A} (f : A → JSON) (o : option A) : JSON :=
  match o with Some a => f a | None => JUndefined end.


Definition json_headers : list (string * string) :=
  [("Content-Type", "application/json")].

Definition MatchAnalysisRequest_json (request : MatchAnalysisRequest) : JSON :=
  JObject [("resume_id", JString (req_resume_id request));
           ("job_id", JString (req_job_id request));
           ("include_recommendations", optional JBool (include_recommendations request));
           ("include_ai_insights", optional JBool (include_ai_insights request))].

Section Client.
Context {platform : Platform} {schemas : Schemas}.

(** ** lib/api/job.ts *)

Definition uploadJobs_request (resumeId : option string) (description : string) : Request :=
  {| url := API_URL +:+ "/api/v1/jobs/process-enhanced";
     method := "POST";
     headers := json_headers;
     body := TextBody (JSON_stringify (JObject
               [("job_description", JString description);
                ("resume_id", optional JString resumeId)])) |}.

Definition uploadJobs (jobDescriptions : list string) (resumeId : option string)
    : Net (list JobUploadResponse) :=
  let promises := (λ description,
    response ← fetch (uploadJobs_request resumeId description);
    if negb (ok response) then
      errorText ← response_text response;
      throw (Error ("Job upload failed: " +:+ pretty (status response)
                      +:+ " - " +:+ errorText))
    else response_json response) <$> jobDescriptions in
  Promise_all promises.

Definition searchJobs_params
    (filters : list (string * FilterValue)) (page perPage : number)
    : list (string * string) :=
  let queryParams := foldl (λ queryParams '(key, value),
    match value with
    | FUndefined | FNull => queryParams
    | FList items => queryParams ++ [(key, String.concat "," items)]
    | FText s => queryParams ++ [(key, s)]
    | FNum n => queryParams ++ [(key, Number_toString n)]
    end) [] filters in
  queryParams ++ [("page", Number_toString page)]
              ++ [("per_page", Number_toString perPage)].



Definition getResumeJobs_request (resumeId : string) : Request :=
  GET (API_URL +:+ "/api/v1/jobs?resume_id=" +:+ resumeId).

Definition getResumeJobs (resumeId : string) : Net (list ProcessedJob) :=
  response ← fetch (getResumeJobs_request resumeId);
  if negb (ok response) then
    errorText ← response_text response;
    throw (Error ("Failed to get resume jobs: " +:+ pretty (status response)
                    +:+ " - " +:+ errorText))
  else
    jobs ← response_json response;
    mret (default [] jobs).





(** ** lib/api/resume.ts *)

Definition uploadJobDescriptions_request
    (descriptions : list string) (resumeId : string) : Request :=
  {| url := API_URL +:+ "/api/v1/jobs/upload";
     method := "POST";
     headers := json_headers;
     body := TextBody (JSON_stringify (JObject
               [("job_descriptions", JArray (JString <$> descriptions));
                ("resume_id", JString resumeId)])) |}.

(** Returns [data.job_id[0]], which is [undefined] on an empty array. *)
Definition uploadJobDescriptions (descriptions : list string) (resumeId : string)
    : Net (option string) :=
  res ← fetch (uploadJobDescriptions_request descriptions resumeId);
  if negb (ok res) then
    throw (Error ("Upload failed with status " +:+ pretty (status res)))
  else
    job_id ← response_json (T := list string) res;
    mret (head job_id).





Definition processJobEnhanced_request
    (jobDescription : string) (resumeId : option string) : Request :=
  {| url := API_URL +:+ "/api/v1/jobs/process-enhanced";
     method := "POST";
     headers := json_headers;
     body := TextBody (JSON_stringify (JObject
               [("job_description", JString jobDescription);
                ("resume_id", optional JString resumeId)])) |}.

Definition processJobEnhanced (jobDescription : string) (resumeId : option string)
    : Net JobUploadResponse :=
  response ← fetch (processJobEnhanced_request jobDescription resumeId);
  if negb (ok response) then
    errorText ← response_text response;
    throw (Error ("Enhanced job processing failed: " +:+ pretty (status response)
                    +:+ " - " +:+ errorText))
  else response_json response.

Definition analyzeResumeJobMatch_request (request : MatchAnalysisRequest) : Request :=
  {| url := API_URL +:+ "/api/v1/resumes/analyze-match";
     method := "POST";
     headers := json_headers;
     body := TextBody (JSON_stringify (MatchAnalysisRequest_json request)) |}.

Definition analyzeResumeJobMatch (request : MatchAnalysisRequest)
    : Net ResumeJobMatchResult :=
  response ← fetch (analyzeResumeJobMatch_request request);
  if negb (ok response) then
    errorText ← response_text response;
    throw (Error ("Match analysis failed: " +:+ pretty (status response)
                    +:+ " - " +:+ errorText))
  else response_json response.



Definition getDashboardData_request (resumeId : string) : Request :=
  GET (API_URL +:+ "/api/v1/analysis/dashboard/" +:+ resumeId).

Definition getDashboardData (resumeId : string) : Net DashboardData :=
  response ← fetch (getDashboardData_request resumeId);
  if negb (ok response) then
    errorText ← response_text response;
    throw (Error ("Failed to get dashboard data: " +:+ pretty (status response)
                    +:+ " - " +:+ errorText))
  else response_json response.

Definition getBulkAnalysis_params (request : option BulkMatchRequest)
    : list (string * string) :=
  let queryParams := [] in
  let queryParams :=
    match request ≫= job_ids with
    | Some ids => queryParams ++ [("job_ids", String.concat "," ids)]
    | None => queryParams
    end in
  let queryParams :=
    match request ≫= max_jobs with
    | Some n => if truthy n then queryParams ++ [("max_jobs", Number_toString n)]
                else queryParams
    | None => queryParams
    end in
  match request ≫= min_match_score with
  | Some n => if truthy n then queryParams ++ [("min_match_score", Number_toString n)]
              else queryParams
  | None => queryParams
  end.

Definition getBulkAnalysis_request
    (resumeId : string) (request : option BulkMatchRequest) : Request :=
  GET (API_URL +:+ "/api/v1/analysis/bulk-analysis/" +:+ resumeId +:+ "?"
         +:+ URLSearchParams_toString (getBulkAnalysis_params request)).

Definition getBulkAnalysis (resumeId : string) (request : option BulkMatchRequest)
    : Net BulkAnalysisResult :=
  response ← fetch (getBulkAnalysis_request resumeId request);
  if negb (ok response) then
    errorText ← response_text response;
    throw (Error ("Bulk analysis failed: " +:+ pretty (status response)
                    +:+ " - " +:+ errorText))
  else response_json response.



Definition getProcessedResume_request (resumeId : string) : Request :=
  GET (API_URL +:+ "/api/v1/resumes/" +:+ resumeId).

Definition getProcessedResume (resumeId : string) : Net ProcessedResume :=
  response ← fetch (getProcessedResume_request resumeId);
  if negb (ok response) then
    errorText ← response_text response;
    throw (Error ("Failed to get resume data: " +:+ pretty (status response)
                    +:+ " - " +:+ errorText))
  else response_json response.



End Client.

End Api.

(** * The object literal that maps job identifiers to match results

    [matchMap] starts as [{}] and is filled by [matchMap[jobId] = match].
    Its state is carried as the finite map of these assignments.  The entry
    at ["__proto__"] stands for the prototype link: that assignment runs the
    setter of [Object.prototype], which installs the match object as the
    prototype and creates no own property.  Every other entry is an own
    property.  A read [jobMatches[key]] goes through the own properties and
    then up the prototype chain. *)

Module JsObject.

(** The property names of [Object.prototype] (ECMAScript, the properties of
    the Object prototype object and its Annex B accessors). *)
Definition Object_prototype : list string :=
  ["constructor"; "hasOwnProperty"; "isPrototypeOf"; "propertyIsEnumerable";
   "toLocaleString"; "toString"; "valueOf";
   "__defineGetter__"; "__defineSetter__"; "__lookupGetter__"; "__lookupSetter__";
   "__proto__"].

(** The value of a property of a match object. *)
Inductive FieldValue :=
  | FieldNumber (n : number)
  | FieldString (s : string)
  | FieldAnalysis (a : MatchAnalysis)
  | FieldSuggestions (rs : list ImprovementSuggestion).

(** What [jobMatches[key]] evaluates to. *)
Inductive Value :=
  | Match (m : ResumeJobMatchResult)   (* a match object *)
  | ObjectPrototype                    (* [Object.prototype] itself *)
  | Field (v : FieldValue)             (* a property of the prototype match *)
  | Member (name : string)             (* a member of [Object.prototype] *)
  | Undefined.

(** The properties of a match object [m], as [m[key]] finds them on [m]
    itself. *)
Definition field (m : ResumeJobMatchResult) (key : string) : option FieldValue :=
  if decide (key = "match_score") then Some (FieldNumber (match_score m))
  else if decide (key = "detailed_analysis") then Some (FieldAnalysis (detailed_analysis m))
  else if decide (key = "recommendations") then FieldSuggestions <$> recommendations m
  else if decide (key = "ai_insights") then Some (FieldString (ai_insights m))
  else if decide (key = "confidence_score") then Some (FieldNumber (confidence_score m))
  else None.

(** A read that found no own property and continues on [Object.prototype]. *)
Definition inherited (key : string) : Value :=
  if decide (key ∈ Object_prototype) then Member key else Undefined.

(** [object[key]] *)
Definition read (object : gmap string ResumeJobMatchResult) (key : string) : Value :=
  if decide (key = "__proto__") then
    match object !! "__proto__" with
    | Some prototype => Match prototype
    | None => ObjectPrototype
    end
  else
    match object !! key with
    | Some m => Match m
    | None =>
        match object !! "__proto__" with
        | Some prototype =>
            match field prototype key with
            | Some v => Field v
            | None => inherited key
            end
        | None => inherited key
        end
    end.

(** Truthiness of a value read. *)
Definition truthyValue (v : Value) : bool :=
  match v with
  | Match _ | ObjectPrototype | Member _ => true
  | Field (FieldNumber n) => truthy n
  | Field (FieldString s) => nonempty s
  | Field _ => true
  | Undefined => false
  end.

(** [Object.keys(object)]: the own properties. *)
Definition keys (object : gmap string ResumeJobMatchResult) : gset string :=
  dom object ∖ {["__proto__"]}.

End JsObject.

(** * components/dashboard/fitscore-dashboard.tsx *)

Module Dashboard.

Inductive Tab := overview | matches | analytics.

(** A settled per-job promise that did not fail: [{ jobId, match }]. *)
Record Settled := { jobId : string; match_ : ResumeJobMatchResult }.

(** The fold of the settled results into [matchMap], carried as the map of
    its assignments (see [JsObject]); [None] is the [null] a failed request
    settles to. *)
Definition matchMap (matchResults : list (option Settled))
    : gmap string ResumeJobMatchResult :=
  foldl (λ matchMap result,
           match result with
           | Some result => <[jobId result := match_ result]> matchMap
           | None => matchMap
           end) ∅ matchResults.

Section Component.
Context {platform : Platform} {schemas : Schemas}.

(** The [useState] cells of the component. *)
Record State := {
  dashboardData : option DashboardData;
  bulkAnalysis : option BulkAnalysisResult;
  recentJobs : list ProcessedJob;
  jobMatches : gmap string ResumeJobMatchResult;
  loading : bool;
  error : option string;
  activeTab : Tab
}.

Definition initialState : State :=
  {| dashboardData := None; bulkAnalysis := None; recentJobs := [];
     jobMatches := ∅; loading := true; error := None; activeTab := overview |}.

(** The component state together with the log of issued requests. *)
Abbreviation UI := (ST (State * list Request)).

Definition call {A} (p : Net A) : UI A := λ '(st, log),
  let '(r, log') := p log in (r, (st, log')).

Definition update (f : State → State) : UI () := λ '(st, log),
  (inr (), (f st, log)).

Definition setDashboardData (v : option DashboardData) : UI () :=
  update (λ st, {| dashboardData := v; bulkAnalysis := bulkAnalysis st;
                   recentJobs := recentJobs st; jobMatches := jobMatches st;
                   loading := loading st; error := error st;
                   activeTab := activeTab st |}).

Definition setBulkAnalysis (v : option BulkAnalysisResult) : UI () :=
  update (λ st, {| dashboardData := dashboardData st; bulkAnalysis := v;
                   recentJobs := recentJobs st; jobMatches := jobMatches st;
                   loading := loading st; error := error st;
                   activeTab := activeTab st |}).

Definition setRecentJobs (v : list ProcessedJob) : UI () :=
  update (λ st, {| dashboardData := dashboardData st; bulkAnalysis := bulkAnalysis st;
                   recentJobs := v; jobMatches := jobMatches st;
                   loading := loading st; error := error st;
                   activeTab := activeTab st |}).

Definition setJobMatches (v : gmap string ResumeJobMatchResult) : UI () :=
  update (λ st, {| dashboardData := dashboardData st; bulkAnalysis := bulkAnalysis st;
                   recentJobs := recentJobs st; jobMatches := v;
                   loading := loading st; error := error st;
                   activeTab := activeTab st |}).

Definition setLoading (v : bool) : UI () :=
  update (λ st, {| dashboardData := dashboardData st; bulkAnalysis := bulkAnalysis st;
                   recentJobs := recentJobs st; jobMatches := jobMatches st;
                   loading := v; error := error st;
                   activeTab := activeTab st |}).

Definition setError (v : option string) : UI () :=
  update (λ st, {| dashboardData := dashboardData st; bulkAnalysis := bulkAnalysis st;
                   recentJobs := recentJobs st; jobMatches := jobMatches st;
                   loading := loading st; error := v;
                   activeTab := activeTab st |}).

(** The request object built for one job. *)
Definition matchRequest (resumeId : string) (job : ProcessedJob) : MatchAnalysisRequest :=
  {| req_resume_id := resumeId;
     req_job_id := job_id job;
     include_recommendations := Some true;
     include_ai_insights := Some true |}.

(** The callback mapped over the kept jobs; [console.error] leaves no
    trace in the state. *)
Definition matchPromise (resumeId : string) (job : ProcessedJob) : UI (option Settled) :=
  catch (match_ ← call (Api.analyzeResumeJobMatch (matchRequest resumeId job));
         mret (Some {| jobId := job_id job; match_ := match_ |}))
        (λ error, mret None).

Definition loadDashboardData (resumeId : string) : UI () :=
  try_catch_finally
    (setLoading true;;
     '(dashboard, jobs, bulk) ← Promise_all3
        (catch (Some <$> call (Api.getDashboardData resumeId)) (λ _, mret None))
        (catch (call (Api.getResumeJobs resumeId)) (λ _, mret []))
        (catch (Some <$> call (Api.getBulkAnalysis resumeId None)) (λ _, mret None));
     setDashboardData dashboard;;
     setRecentJobs (take 6 jobs);;
     setBulkAnalysis bulk;;
     if (0 <? length jobs)%nat then
       let matchPromises := matchPromise resumeId <$> take 6 jobs in
       matchResults ← Promise_all matchPromises;
       setJobMatches (matchMap matchResults)
     else mret ())
    (λ err, setError (Some "Failed to load dashboard data"))
    (setLoading false).

(** The cards of the matches tab: [const matchResult = jobMatches[job.job_id];
    if (!matchResult) return null; return <JobMatchCard matchResult=... />]. *)
Definition matchCards (st : State) : list (ProcessedJob * JsObject.Value) :=
  omap (λ job,
          let matchResult := JsObject.read (jobMatches st) (job_id job) in
          if JsObject.truthyValue matchResult then Some (job, matchResult) else None)
       (recentJobs st).

End Component.

End Dashboard.

(** * The score histogram of the bulk analysis *)

Module Buckets.

Inductive Bucket := Excellent | Good | Fair | Poor.

(** [BulkAnalysisResult.analysis_summary.jobs_by_match_score]
    (lib/types/dashboard.ts). *)
Record jobs_by_match_score := {
  excellent : nat;   (* 90-100% *)
  good : nat;        (* 75-89% *)
  fair : nat;        (* 60-74% *)
  poor : nat         (* <60% *)
}.

(** Modelled from the spec: the function that sorts a match score into a
    bucket.  The frontend sources only declare and display the four
    counters; the classification itself is computed by the backend, which
    is not among them.  The intervals are those of the bucketing policy:
    excellent for [90,100], good for [75,90), fair for [60,75), poor below
    60. *)
Definition classify (score : number) : option Bucket :=
  if js_ge score 90 && js_ge 100 score then Some Excellent
  else if js_ge score 75 && js_lt score 90 then Some Good
  else if js_ge score 60 && js_lt score 75 then Some Fair
  else if js_lt score 60 then Some Poor
  else None.

Definition is_bucket (b : Bucket) (score : number) : bool :=
  match classify score, b with
  | Some Excellent, Excellent | Some Good, Good
  | Some Fair, Fair | Some Poor, Poor => true
  | _, _ => false
  end.

Definition tally (b : Bucket) (scores : list number) : nat :=
  length (List.filter (is_bucket b) scores).

(** Modelled from the spec: the histogram counts, per bucket, the match
    results whose score falls into it. *)
Definition histogram (scores : list number) : jobs_by_match_score :=
  {| excellent := tally Excellent scores;
     good := tally Good scores;
     fair := tally Fair scores;
     poor := tally Poor scores |}.

Definition histogram_of (results : list ResumeJobMatchResult) : jobs_by_match_score :=
  histogram (match_score <$> results).

End Buckets.

(** * Vocabulary of the statements *)

(** The two priorities that count as priority issues. *)
Definition critical_or_high (p : Priority) : Prop := p = critical ∨ p = high.

#[global] Instance Priority_eq_dec : EqDecision Priority.
Proof. solve_decision. Defined.

#[global] Instance critical_or_high_dec p : Decision (critical_or_high p).
Proof. unfold critical_or_high. apply _. Defined.

(** A number that is neither zero nor [NaN]. *)
Definition is_zero (n : number) : Prop := same_number n 0.

(** The clamp as the specification writes it. *)
Definition clampWidth (score : number) : number :=
  Math_max 0 (Math_min 100 score).

(** An identifier that names no property of [Object.prototype]: a read of
    the map of matches at it finds own properties only. *)
Definition plain_id (id : string) : Prop := id ∉ JsObject.Object_prototype.

#[global] Instance plain_id_dec id : Decision (plain_id id).
Proof. unfold plain_id. apply _. Defined.

(** The identifiers of the API as the README documents them
    (["job_id": "uuid"]): 8-4-4-4-12 hexadecimal digits. *)
Definition hexadecimal (c : Ascii.ascii) : bool :=
  let n := Ascii.nat_of_ascii c in
  ((48 <=? n) && (n <=? 57) || (97 <=? n) && (n <=? 102) || (65 <=? n) && (n <=? 70))%nat.

Definition uuid (id : string) : bool :=
  let units := String.list_ascii_of_string id in
  (length units =? 36)%nat
  && forallb (λ '(i, c),
                if bool_decide (i ∈ [8; 13; 18; 23]%nat)
                then (Ascii.nat_of_ascii c =? 45)%nat
                else hexadecimal c)
             (imap pair units).

(** Job identifiers of the settled results that did not fail. *)
Definition settled_ids (matchResults : list (option Dashboard.Settled)) : list string :=
  Dashboard.jobId <$> omap id matchResults.

Section Contracts.
Context {platform : Platform} {schemas : Schemas}.

(** What a wrapper that issues one request makes of the network's reply:
    a rejected fetch is passed on, a non-success status becomes an [Error]
    whose message is [pre], the status, [mid] and the body text, and a
    success status yields the parsed body, handed to [post]. *)
Definition one_call_outcome {T A} `{FromJSON T}
    (pre mid : string) (post : T → A) (reply : exn + Response) : exn + A :=
  match reply with
  | inl e => inl e
  | inr response =>
      if ok response then
        match json_parse (text response) with
        | Some data => inr (post data)
        | None => inl (SyntaxError (text response))
        end
      else inl (Error (pre +:+ pretty (status response) +:+ mid +:+ text response))
  end.

(** A wrapper [p] issues exactly the request [request] and settles as
    [one_call_outcome] says. *)
Definition one_call {T A} `{FromJSON T}
    (p : Net A) (request : Request) (pre mid : string) (post : T → A) : Prop :=
  ∀ log, p log = (one_call_outcome pre mid post (network (length log) request),
                  log ++ [request]).

(** ** The page load, step by step *)

(** The three requests of the first step. *)
Definition initialRequests (resumeId : string) : list Request :=
  [Api.getDashboardData_request resumeId;
   Api.getResumeJobs_request resumeId;
   Api.getBulkAnalysis_request resumeId None].

(** Outcomes of the three calls of the first step, started with [log]
    already issued. *)
Definition dashboardOutcome (resumeId : string) (log : list Request) :=
  outcome (Api.getDashboardData resumeId) log.

Definition jobsOutcome (resumeId : string) (log : list Request) :=
  outcome (Api.getResumeJobs resumeId) (log ++ take 1 (initialRequests resumeId)).

Definition bulkOutcome (resumeId : string) (log : list Request) :=
  outcome (Api.getBulkAnalysis resumeId None) (log ++ take 2 (initialRequests resumeId)).

(** The job list the aggregation works with: the fetched one, or the empty
    list when the fetch failed. *)
Definition fetchedJobs (resumeId : string) (log : list Request) : list ProcessedJob :=
  match jobsOutcome resumeId log with
  | inr jobs => jobs
  | inl _ => []
  end.

Definition keptJobs (resumeId : string) (log : list Request) : list ProcessedJob :=
  take 6 (fetchedJobs resumeId log).

Definition matchRequests (resumeId : string) (jobs : list ProcessedJob) : list Request :=
  (λ job, Api.analyzeResumeJobMatch_request (Dashboard.matchRequest resumeId job)) <$> jobs.

(** Outcome of the match-analysis request for [job], the [i]-th kept job. *)
Definition matchOutcome (resumeId : string) (log : list Request)
    (i : nat) (job : ProcessedJob) : exn + ResumeJobMatchResult :=
  outcome (Api.analyzeResumeJobMatch (Dashboard.matchRequest resumeId job))
          (log ++ initialRequests resumeId
               ++ matchRequests resumeId (take i (keptJobs resumeId log))).

(** The settled promises of [uploadJobs], the first request being issued
    after [log]. *)
Fixpoint uploadOutcomes (resumeId : option string) (log : list Request)
    (jobDescriptions : list string) : list (exn + JobUploadResponse) :=
  match jobDescriptions with
  | [] => []
  | description :: rest =>
      one_call_outcome "Job upload failed: " " - " id
        (network (length log) (Api.uploadJobs_request resumeId description))
      :: uploadOutcomes resumeId (log ++ [Api.uploadJobs_request resumeId description]) rest
  end.

(** What a per-job promise settles to, given the outcome of its request. *)
Definition settle (job : ProcessedJob) (r : exn + ResumeJobMatchResult)
    : option Dashboard.Settled :=
  match r with
  | inr m => Some {| Dashboard.jobId := job_id job; Dashboard.match_ := m |}
  | inl _ => None
  end.

(** The settled results of the fan-out over [jobs], the first request
    being issued after [log]. *)
Fixpoint settledFrom (resumeId : string) (log : list Request) (jobs : list ProcessedJob)
    : list (option Dashboard.Settled) :=
  match jobs with
  | [] => []
  | job :: jobs' =>
      settle job (outcome (Api.analyzeResumeJobMatch (Dashboard.matchRequest resumeId job)) log)
      :: settledFrom resumeId
           (log ++ [Api.analyzeResumeJobMatch_request (Dashboard.matchRequest resumeId job)])
           jobs'
  end.

(** State and log once [loadDashboardData] has run. *)
Definition loaded (resumeId : string) (st : Dashboard.State) (log : list Request)
    : Dashboard.State * list Request :=
  (Dashboard.loadDashboardData resumeId (st, log)).2.

End Contracts.

(** * Sample data *)

Module Sample.

Definition job (id : string) : ProcessedJob :=
  {| job_id := id; job_title := "Engineer" |}.

Definition analysis : MatchAnalysis :=
  {| skills_match := 80; experience_match := 70; education_match := 60;
     keyword_coverage := 50; missing_keywords := Some ["rust"];
     matched_keywords := Some ["typescript"]; improvement_priority := medium |}.

Definition advice (p : Priority) : ImprovementSuggestion :=
  {| category := content; priority := p;
     suggestion := "Quantify achievements"; impact_score := 70 |}.

Definition result (score : number) (rs : option (list ImprovementSuggestion))
    : ResumeJobMatchResult :=
  {| match_score := score; detailed_analysis := analysis; recommendations := rs;
     ai_insights := "Solid fit"; confidence_score := 85 |}.

Definition scores (overall : number) : AIAnalysisScores :=
  {| overall_score := overall; ats_compatibility := 70; keyword_optimization := 65;
     structure_quality := 75; content_relevance := 60; experience_alignment := 55;
     ai_skills_match := 50; education_relevance := 45 |}.

Definition resume (ai : option AIAnalysisScores) : ProcessedResume :=
  {| resume_id := "r1"; ai_analysis_scores := ai; ats_compatibility_score := None |}.

(** Bodies are decoded by name; anything else is not JSON. *)
Definition passthrough : FromJSON string :=
  λ s, if decide (s = "<html>") then None else Some s.

Definition schemas : Schemas :=
  {| JobUploadResponse := string; JobSearchResult := string;
     ImprovedResult := string; ResumeUploadResponse := string;
     MatchHistory := string; DashboardData := string;
     BulkAnalysisResult := string; ComparisonAnalysis := string;
     JobUploadResponse_json := passthrough; JobSearchResult_json := passthrough;
     ImprovedResult_json := passthrough; ResumeUploadResponse_json := passthrough;
     MatchHistory_json := passthrough; DashboardData_json := passthrough;
     BulkAnalysisResult_json := passthrough; ComparisonAnalysis_json := passthrough;
     ProcessedJob_json := λ s, if decide (s = "<html>") then None else Some (job s);
     ProcessedResume_json := λ s,
       if decide (s = "<html>") then None else Some (resume None);
     ResumeJobMatchResult_json := λ s,
       if decide (s = "match95") then Some (result 95 None)
       else if decide (s = "match72") then Some (result 72 None)
       else if decide (s = "match40") then Some (result 40 None)
       else None;
     jobs_json := λ s,
       if decide (s = "{jobs:[j1,j2]}") then Some (Some [job "j1"; job "j2"])
       else if decide (s = "{jobs:[j1,constructor]}") then
         Some (Some [job "j1"; job "constructor"])
       else if decide (s = "{jobs:[j1..j8]}") then
         Some (Some (job <$> ["j1"; "j2"; "j3"; "j4"; "j5"; "j6"; "j7"; "j8"]))
       else if decide (s = "{}") then Some None
       else None;
     job_id_json := λ s, if decide (s = "<html>") then None else Some [s] |}.

(** A network that answers the [n]-th request with the [n]-th reply and
    fails once the replies are used up. *)
Definition platform (replies : list (exn + Response)) : Platform :=
  {| network := λ n _, default (inl (TypeError "Failed to fetch")) (replies !! n);
     settle_rank := λ i, i;
     JSON_stringify := λ _, "{}";
     Number_toString := λ _, "1";
     URLSearchParams_toString := λ ps,
       String.concat "&" ((λ '(k, v), k +:+ "=" +:+ v) <$> ps);
     API_URL := "http://localhost:8001" |}.

Definition reply (code : Z) (body : string) : exn + Response :=
  inr {| status := code; text := body |}.

(** resumeId "r1": j1 succeeds, j2 answers 500. *)
Definition one_of_two_fails : list (exn + Response) :=
  [reply 200 "dashboard"; reply 200 "{jobs:[j1,j2]}"; reply 200 "bulk";
   reply 200 "match95"; reply 500 "Internal Server Error"].

(** Eight jobs are listed; every analysis that is requested succeeds. *)
Definition eight_jobs : list (exn + Response) :=
  [reply 200 "dashboard"; reply 200 "{jobs:[j1..j8]}"; reply 200 "bulk";
   reply 200 "match95"; reply 200 "match72"; reply 200 "match40";
   reply 200 "match95"; reply 200 "match72"; reply 200 "match40";
   reply 200 "match95"; reply 200 "match72"].

(** The dashboard endpoint answers 500, the job list arrives, and the
    bulk-analysis fetch itself fails. *)
Definition only_jobs_arrive : list (exn + Response) :=
  [reply 500 "Internal Server Error"; reply 200 "{jobs:[j1,j2]}";
   inl (TypeError "Failed to fetch");
   reply 200 "match95"; reply 200 "match72"].

End Sample.

(** * Strings of JavaScript

    The components only measure, slice, join and compare strings; a string
    is carried as its sequence of code units. *)

(** [a || b] and [a || 'literal'] on strings that may be [undefined]. *)
Definition js_or_string (a b : option string) : option string :=
  match a with
  | Some s => if nonempty s then Some s else b
  | None => b
  end.

Definition js_or_string_default (a : option string) (d : string) : string :=
  match a with
  | Some s => if nonempty s then s else d
  | None => d
  end.

(** [items.join(sep)] *)
Definition join (sep : string) (items : list string) : string :=
  String.concat sep items.

(** [s.slice(0, n)] for [n] within [0, 2^53). *)
Definition slice_to (n : nat) (s : string) : string := String.substring 0 n s.

(** [c.toUpperCase()] on one code unit, for the letters a to z. *)
Definition upper (c : Ascii.ascii) : Ascii.ascii :=
  let n := Ascii.nat_of_ascii c in
  if (97 <=? n)%nat && (n <=? 122)%nat then Ascii.ascii_of_nat (n - 32) else c.

(** [s.toUpperCase()] on strings of such letters. *)
Fixpoint toUpperCase (s : string) : string :=
  match s with
  | EmptyString => EmptyString
  | String c s' => String (upper c) (toUpperCase s')
  end.

(** [s.charAt(0).toUpperCase() + s.slice(1)] *)
Definition capitalize (s : string) : string :=
  match s with
  | EmptyString => EmptyString
  | String c s' => String (upper c) s'
  end.

(** The string literals of the two union types. *)
Definition Priority_text (p : Priority) : string :=
  match p with
  | low => "low"
  | medium => "medium"
  | high => "high"
  | critical => "critical"
  end.

Definition Category_text (c : Category) : string :=
  match c with
  | skills => "skills"
  | experience => "experience"
  | education => "education"
  | formatting => "formatting"
  | keywords => "keywords"
  | content => "content"
  end.

(** Lift a network computation to a component that owns state [S]. *)
Definition lift {S A} (p : Net A) : ST (S * list Request) A := λ '(st, log),
  let '(r, log') := p log in (r, (st, log')).

(** * components/dashboard/resume-analysis.tsx, the rest of the component *)

Module ResumeAnalysisPanel.

(** lib/types/analysis.ts; the component reads every list with [?.]. *)
Record AIFeedback := {
  strengths : option (list string);
  improvements : option (list string);
  critical_issues : option (list string);
  keyword_suggestions : option (list string);
  formatting_recommendations : option (list string)
}.

Record LegacyImprovementSuggestion := {
  suggestion : string;
  lineNumber : option string
}.

(** [aiFeedback?.improvements?.map(...) || improvements?.map(...) || []]:
    an array is truthy even when it is empty. *)
Definition enhancedSuggestions
    (aiFeedback : option AIFeedback)
    (legacy : option (list LegacyImprovementSuggestion)) : list ImprovementSuggestion :=
  match aiFeedback ≫= improvements with
  | Some items =>
      (λ improvement,
         {| category := content; priority := medium;
            Types.suggestion := improvement; impact_score := 70 |}) <$> items
  | None =>
      match legacy with
      | Some items =>
          (λ item,
             {| category := content; priority := medium;
                Types.suggestion := suggestion item; impact_score := 60 |}) <$> items
      | None => []
      end
  end.

(** [aiFeedback?.strengths?.join(' ') || details || 'Analysis in progress...'] *)
Definition analysisDetails (aiFeedback : option AIFeedback) (details : option string) : string :=
  js_or_string_default
    (js_or_string (join " " <$> (aiFeedback ≫= strengths)) details)
    "Analysis in progress...".

(** [aiFeedback?.critical_issues?.join(' ') || commentary || ''] *)
Definition analysisCommentary
    (aiFeedback : option AIFeedback) (commentary : option string) : string :=
  js_or_string_default
    (js_or_string (join " " <$> (aiFeedback ≫= critical_issues)) commentary)
    "".

(** [t.length > 100 ? t.slice(0, 97) + '...' : t] *)
Definition truncated (t : string) : string :=
  if (100 <? String.length t)%nat then slice_to 97 t +:+ "..." else t.

Definition truncatedDetails (aiFeedback : option AIFeedback) (details : option string) : string :=
  truncated (analysisDetails aiFeedback details).

Definition truncatedCommentary
    (aiFeedback : option AIFeedback) (commentary : option string) : string :=
  truncated (analysisCommentary aiFeedback commentary).

(** The commentary paragraph: [truncatedCommentary && <p>...</p>]. *)
Definition commentaryParagraph
    (aiFeedback : option AIFeedback) (commentary : option string) : option string :=
  let t := truncatedCommentary aiFeedback commentary in
  if nonempty t then Some t else None.

(** Classes of the priority badge of a suggestion. *)
Definition priorityBadge (p : Priority) : string :=
  match p with
  | critical => "bg-red-500 text-white"
  | high => "bg-orange-500 text-white"
  | medium => "bg-yellow-500 text-black"
  | _ => "bg-green-500 text-white"
  end.

(** One row of the suggestions list of the report. *)
Record Row := {
  rowBadge : string;
  rowPriority : string;
  rowImpact : number;
  rowText : string;
  rowCategory : string
}.

Definition row (s : ImprovementSuggestion) : Row :=
  {| rowBadge := priorityBadge (priority s);
     rowPriority := toUpperCase (Priority_text (priority s));
     rowImpact := impact_score s;
     rowText := Types.suggestion s;
     rowCategory := capitalize (Category_text (category s)) |}.

Definition suggestionRows
    (aiFeedback : option AIFeedback)
    (legacy : option (list LegacyImprovementSuggestion)) : list Row :=
  row <$> enhancedSuggestions aiFeedback legacy.

(** The props and the [useState] cells the loading effect touches. *)
Record Props := {
  resume_id : option string;
  resumeData : option ProcessedResume
}.

Record State := {
  isModalOpen : bool;
  resumeAnalysis : option ProcessedResume;
  loading : bool;
  error : option string
}.

(** The state at mount: [useState(resumeData || null)]. *)
Definition mount (props : Props) : State :=
  {| isModalOpen := false; resumeAnalysis := resumeData props;
     loading := false; error := None |}.

Definition setResumeAnalysis (v : option ProcessedResume) (st : State) : State :=
  {| isModalOpen := isModalOpen st; resumeAnalysis := v;
     loading := loading st; error := error st |}.

Definition setLoading (v : bool) (st : State) : State :=
  {| isModalOpen := isModalOpen st; resumeAnalysis := resumeAnalysis st;
     loading := v; error := error st |}.

Definition setError (v : option string) (st : State) : State :=
  {| isModalOpen := isModalOpen st; resumeAnalysis := resumeAnalysis st;
     loading := loading st; error := v |}.

Definition update (f : State → State) : ST (State * list Request) () :=
  λ '(st, log), (inr (), (f st, log)).

Section Effect.
Context {platform : Platform} {schemas : Schemas}.

(** The effect: [if (resume_id && !resumeData) { setLoading(true);
    getProcessedResume(resume_id).then(setResumeAnalysis).catch(...)
    .finally(() => setLoading(false)) }]. *)
Definition loadResume (props : Props) : ST (State * list Request) () :=
  match resume_id props, resumeData props with
  | Some id, None =>
      if nonempty id then
        update (setLoading true);;
        try_catch_finally
          (resume ← lift (Api.getProcessedResume id);
           update (setResumeAnalysis (Some resume)))
          (λ err, update (setError (Some "Failed to load resume analysis")))
          (update (setLoading false))
      else mret ()
  | _, _ => mret ()
  end.

End Effect.

(** What the component returns. *)
Inductive View :=
  | Skeleton
  | ErrorPanel (message : string)
  | Report.

Definition view (st : State) : View :=
  if loading st then Skeleton
  else match error st with
       | Some message => if nonempty message then ErrorPanel message else Report
       | None => Report
       end.

End ResumeAnalysisPanel.

(** * components/dashboard/job-match-card.tsx, the detail dialog *)

Module JobMatchModal.

(** The matched-keywords box:
    [matched_keywords?.slice(0, 10).map(...) || <span>No matched keywords
    available</span>]; an array is truthy even when it is empty. *)
Inductive MatchedBox :=
  | Keywords (shown : list string)
  | NoMatchedKeywordsAvailable.

Definition matchedBox (matchResult : ResumeJobMatchResult) : MatchedBox :=
  match matched_keywords (detailed_analysis matchResult) with
  | Some matched => Keywords (take 10 matched)
  | None => NoMatchedKeywordsAvailable
  end.

(** [missing_keywords && missing_keywords.length > 0 && ...slice(0, 15)] *)
Definition missingSection (matchResult : ResumeJobMatchResult) : option (list string) :=
  match missing_keywords (detailed_analysis matchResult) with
  | Some missing => if (0 <? length missing)%nat then Some (take 15 missing) else None
  | None => None
  end.

(** [recommendations && recommendations.length > 0 && ...slice(0, 8)] *)
Definition recommendationsSection
    (matchResult : ResumeJobMatchResult) : option (list ImprovementSuggestion) :=
  match recommendations matchResult with
  | Some rs => if (0 <? length rs)%nat then Some (take 8 rs) else None
  | None => None
  end.

End JobMatchModal.

(** * components/dashboard/fitscore-dashboard.tsx, what is rendered *)

Module DashboardView.

(** The matches tab: the grid of cards, or the empty state when there are no
    recent jobs. *)
Inductive MatchesTab :=
  | Grid (cards : list (ProcessedJob * JsObject.Value))
  | NoJobMatchesYet.

Inductive View :=
  | Skeleton
  | DashboardError (message : string)
  | Tabs (active : Dashboard.Tab).

Section Render.
Context {schemas : Schemas}.

Definition view (st : Dashboard.State) : View :=
  if Dashboard.loading st then Skeleton
  else match Dashboard.error st with
       | Some message =>
           if nonempty message then DashboardError message
           else Tabs (Dashboard.activeTab st)
       | None => Tabs (Dashboard.activeTab st)
       end.

Definition matchesTab (st : Dashboard.State) : MatchesTab :=
  if (0 <? length (Dashboard.recentJobs st))%nat
  then Grid (Dashboard.matchCards st)
  else NoJobMatchesYet.

End Render.

End DashboardView.

(** * Vocabulary of the further statements *)

(** A filter value that [searchJobs] sends. *)
Definition sent (v : Api.FilterValue) : bool :=
  match v with
  | Api.FUndefined | Api.FNull => false
  | _ => true
  end.

(** Number of filters that are sent. *)
Definition sentCount (filters : list (string * Api.FilterValue)) : nat :=
  length (List.filter (λ kv, sent kv.2) filters).

(** Colour bands, read off a class name of either family. *)
Inductive Band := Green | Yellow | Red.

Definition band (class : string) : option Band :=
  if decide (class = "text-green-500" ∨ class = "bg-green-500") then Some Green
  else if decide (class = "text-yellow-500" ∨ class = "bg-yellow-500") then Some Yellow
  else if decide (class = "text-red-500" ∨ class = "bg-red-500") then Some Red
  else None.

(** The band a label belongs to. *)
Definition labelBand (label : string) : option Band :=
  if decide (label = "Excellent" ∨ label = "Very Good"
             ∨ label = "Excellent Match" ∨ label = "Very Good Match") then Some Green
  else if decide (label = "Good" ∨ label = "Fair"
                  ∨ label = "Good Match" ∨ label = "Fair Match") then Some Yellow
  else if decide (label = "Needs Improvement") then Some Red
  else None.

(** Bands and labels from worst to best. *)
Definition bandRank (b : option Band) : nat :=
  match b with
  | Some Green => 2
  | Some Yellow => 1
  | _ => 0
  end.

Definition labelRank (label : string) : nat :=
  if decide (label = "Excellent" ∨ label = "Excellent Match") then 4
  else if decide (label = "Very Good" ∨ label = "Very Good Match") then 3
  else if decide (label = "Good" ∨ label = "Good Match") then 2
  else if decide (label = "Fair" ∨ label = "Fair Match") then 1
  else 0.

(** * Further sample replies *)

Module Scenarios.

(** The job list answers 200 with a body that has no [jobs] property. *)
Definition no_jobs_key : list (exn + Response) :=
  [Sample.reply 200 "dashboard"; Sample.reply 200 "{}"; Sample.reply 200 "bulk"].



(** Three uploads, the second of which answers 422. *)
Definition second_upload_fails : list (exn + Response) :=
  [Sample.reply 200 "a"; Sample.reply 422 "Unprocessable"; Sample.reply 200 "c"].

(** The quotation mark. *)
Definition quote : string :=
  String (Ascii.Ascii false true false false false true false false) EmptyString.

(** [JSON.stringify] on the values the scenarios send: strings that need no
    escaping, booleans, integers, and arrays and objects of these.  A
    property whose value is [undefined] is left out of an object. *)
Fixpoint stringify (v : JSON) : string :=
  match v with
  | JUndefined | JNull => "null"
  | JBool b => if b then "true" else "false"
  | JNumber (Finite q) => pretty (Qnum q / Zpos (Qden q))%Z
  | JNumber _ => "null"
  | JString s => quote +:+ s +:+ quote
  | JArray items => "[" +:+ String.concat "," (List.map stringify items) +:+ "]"
  | JObject fields =>
      "{" +:+ String.concat ","
                (List.flat_map
                   (λ field,
                      match field with
                      | (_, JUndefined) => []
                      | (key, value) => [quote +:+ key +:+ quote +:+ ":" +:+ stringify value]
                      end) fields)
          +:+ "}"
  end.

(** The network of [Sample.platform] behind a [JSON.stringify] that shows
    what is sent. *)
Definition platform (replies : list (exn + Response)) : Platform :=
  {| network := network (Platform := Sample.platform replies);
     settle_rank := λ i, i;
     JSON_stringify := stringify;
     Number_toString := λ n, stringify (JNumber n);
     URLSearchParams_toString := λ ps,
       String.concat "&" ((λ '(k, v), k +:+ "=" +:+ v) <$> ps);
     API_URL := "http://localhost:8001" |}.

End Scenarios.

(** * Properties *)

(** ** Numbers *)

Lemma js_ge_Finite (x y : Q) : js_ge (Finite x) (Finite y) = true ↔ (y <= x)%Q.
Proof. apply Qle_bool_iff. Qed.

Lemma js_ge_Finite_false (x y : Q) : js_ge (Finite x) (Finite y) = false ↔ (x < y)%Q.
Proof.
  rewrite <- not_true_iff_false, js_ge_Finite. split.
  - apply Qnot_le_lt.
  - apply Qlt_not_le.
Qed.

Lemma js_ge_at_least (t : Q) (s : number) : js_ge s t = true ↔ at_least t s.
Proof.
  destruct s as [| |q|]; simpl; try (split; [discriminate | tauto]); try tauto.
  apply Qle_bool_iff.
Qed.

Lemma js_ge_not_at_least (t : Q) (s : number) : js_ge s t = false ↔ ¬ at_least t s.
Proof. rewrite <- js_ge_at_least, not_true_iff_false. reflexivity. Qed.

Lemma js_lt_below (t : Q) (s : number) : js_lt s t = true ↔ below t s.
Proof.
  destruct s as [| |q|]; simpl; try (split; [discriminate | tauto]); try tauto.
  rewrite negb_true_iff. apply js_ge_Finite_false.
Qed.

Lemma below_not_at_least (t : Q) (s : number) : below t s → ¬ at_least t s.
Proof. destruct s; simpl; try tauto. apply Qlt_not_le. Qed.

Lemma at_least_mono (t u : Q) (s : number) : (t <= u)%Q → at_least u s → at_least t s.
Proof. destruct s; simpl; try tauto. intros. lra. Qed.

Lemma truthy_Finite (q : Q) : truthy (Finite q) = true ↔ ¬ (q == 0)%Q.
Proof.
  simpl. rewrite negb_true_iff, <- not_true_iff_false, Qeq_bool_iff. tauto.
Qed.

Lemma truthy_spec (n : number) : truthy n = true ↔ n ≠ NaN ∧ ¬ is_zero n.
Proof.
  destruct n as [| |q|]; unfold is_zero; simpl.
  - split; [discriminate | intros [? _]; congruence].
  - split; [intros _; split; [discriminate | tauto] | reflexivity].
  - rewrite negb_true_iff, <- not_true_iff_false, Qeq_bool_iff.
    split; [intros ?; split; [discriminate | assumption] | tauto].
  - split; [intros _; split; [discriminate | tauto] | reflexivity].
Qed.

(** Decide every threshold test of the goal and turn it into a fact about
    the score. *)
Ltac thresholds :=
  repeat match goal with
  | |- context [js_ge ?s (Finite ?t)] =>
      let E := fresh "E" in
      destruct (js_ge s (Finite t)) eqn:E;
      [apply js_ge_at_least in E | apply js_ge_not_at_least in E]
  end.

Ltac order :=
  repeat match goal with
  | H : below _ _ |- _ => apply below_not_at_least in H
  | H : _ ∧ _ |- _ => destruct H
  end;
  try tauto;
  try (exfalso;
       match goal with
       | H : at_least ?u ?s, N : ¬ at_least ?t ?s |- _ =>
           apply N; apply (at_least_mono t u s); [lra | exact H]
       end).

(** ** Score colours and labels *)

(** C5, as amended: the presentation helpers of the two components that band
    a score ([getScoreColor], [getScoreText] and the bar colour of the
    resume analysis; [getMatchColor], [getMatchBadgeColor] and
    [getMatchText] of the job match card) band colours by the same
    thresholds (green from 80, yellow from 60, red otherwise, as a text- or
    bg- class), and label by the same thresholds (90, 80, 70, 60); the
    resume analysis reads Excellent, Very Good, Good, Fair, Needs
    Improvement, and the job match card reads the first four with the word
    Match appended. *)
Theorem score_presentation (s : number) :
  (at_least 80 s →
     ResumeAnalysis.getScoreColor s = "text-green-500" ∧
     ResumeAnalysis.barColor s = "bg-green-500" ∧
     JobMatchCard.getMatchColor s = "text-green-500" ∧
     JobMatchCard.getMatchBadgeColor s = "bg-green-500") ∧
  (at_least 60 s ∧ below 80 s →
     ResumeAnalysis.getScoreColor s = "text-yellow-500" ∧
     ResumeAnalysis.barColor s = "bg-yellow-500" ∧
     JobMatchCard.getMatchColor s = "text-yellow-500" ∧
     JobMatchCard.getMatchBadgeColor s = "bg-yellow-500") ∧
  (¬ at_least 60 s →
     ResumeAnalysis.getScoreColor s = "text-red-500" ∧
     ResumeAnalysis.barColor s = "bg-red-500" ∧
     JobMatchCard.getMatchColor s = "text-red-500" ∧
     JobMatchCard.getMatchBadgeColor s = "bg-red-500") ∧
  (at_least 90 s →
     ResumeAnalysis.getScoreText s = "Excellent" ∧
     JobMatchCard.getMatchText s = "Excellent Match") ∧
  (at_least 80 s ∧ below 90 s →
     ResumeAnalysis.getScoreText s = "Very Good" ∧
     JobMatchCard.getMatchText s = "Very Good Match") ∧
  (at_least 70 s ∧ below 80 s →
     ResumeAnalysis.getScoreText s = "Good" ∧
     JobMatchCard.getMatchText s = "Good Match") ∧
  (at_least 60 s ∧ below 70 s →
     ResumeAnalysis.getScoreText s = "Fair" ∧
     JobMatchCard.getMatchText s = "Fair Match") ∧
  (¬ at_least 60 s →
     ResumeAnalysis.getScoreText s = "Needs Improvement" ∧
     JobMatchCard.getMatchText s = "Needs Improvement").
Proof.
  unfold ResumeAnalysis.getScoreColor, ResumeAnalysis.barColor,
    ResumeAnalysis.getScoreText, JobMatchCard.getMatchColor,
    JobMatchCard.getMatchBadgeColor, JobMatchCard.getMatchText.
  repeat split; intros; thresholds; try reflexivity; order.
Qed.

(** The boundary value 80 is green and Very Good. *)
Lemma score_presentation_at_80 :
  ResumeAnalysis.getScoreColor 80 = "text-green-500" ∧
  ResumeAnalysis.getScoreText 80 = "Very Good" ∧
  JobMatchCard.getMatchText 80 = "Very Good Match".
Proof.
  pose proof (score_presentation 80) as (G & _ & _ & _ & V & _).
  split; [apply G; simpl; lra |].
  split; apply V; simpl; lra.
Defined.

(** C5 as stated fails: at 95 the job match card does not read Excellent. *)
Lemma job_match_card_label_differs :
  at_least 90 95 ∧
  JobMatchCard.getMatchText 95 = "Excellent Match" ∧
  JobMatchCard.getMatchText 95 ≠ "Excellent" ∧
  JobMatchCard.getMatchText 95 ≠ ResumeAnalysis.getScoreText 95.
Proof. split; [simpl; lra |]. repeat split; discriminate. Qed.

(** ** The overall score and its bar *)

Lemma js_or_default_not_NaN (a : option number) (d : number) :
  d ≠ NaN → js_or_default a d ≠ NaN.
Proof.
  intros Hd. destruct a as [[| |q|]|]; simpl; try assumption; try discriminate.
  destruct (Qeq_bool q 0); simpl; [assumption | discriminate].
Qed.

Lemma overallScore_not_NaN (resumeAnalysis : option ProcessedResume) (score : option number) :
  ResumeAnalysis.overallScore resumeAnalysis score ≠ NaN.
Proof. apply js_or_default_not_NaN. discriminate. Qed.

Lemma barWidth_clampWidth (s : number) :
  s ≠ NaN →
  same_number (ResumeAnalysis.barWidth s) (clampWidth s) ∧
  between 0 100 (ResumeAnalysis.barWidth s).
Proof.
  intros Hs. unfold ResumeAnalysis.barWidth, clampWidth.
  destruct s as [| |q|]; [congruence | simpl; split; lra | | simpl; split; lra].
  unfold Math_max, Math_min.
  destruct (js_ge 0 q) eqn:E0;
    [apply js_ge_Finite in E0 | apply js_ge_Finite_false in E0];
  destruct (js_ge q 100) eqn:E1;
    [apply js_ge_Finite in E1 | apply js_ge_Finite_false in E1
    |apply js_ge_Finite in E1 | apply js_ge_Finite_false in E1];
  repeat match goal with
  | |- context [js_ge (Finite ?x) (Finite ?y)] =>
      let E := fresh "E" in
      destruct (js_ge (Finite x) (Finite y)) eqn:E;
      [apply js_ge_Finite in E | apply js_ge_Finite_false in E]
  end; simpl; split; lra.
Qed.

(** C7: the width of the score bar is the score clamped to [0,100], for
    every score that is not [NaN] and so for every overall score the
    component computes, whatever the resume and the legacy prop hold. *)
Theorem barWidth_clamped :
  (∀ s : number, s ≠ NaN →
     same_number (ResumeAnalysis.barWidth s) (clampWidth s) ∧
     between 0 100 (ResumeAnalysis.barWidth s)) ∧
  (∀ (resumeAnalysis : option ProcessedResume) (score : option number),
     let overallScore := ResumeAnalysis.overallScore resumeAnalysis score in
     same_number (ResumeAnalysis.barWidth overallScore) (clampWidth overallScore) ∧
     between 0 100 (ResumeAnalysis.barWidth overallScore)).
Proof.
  split.
  - apply barWidth_clampWidth.
  - intros. apply barWidth_clampWidth, overallScore_not_NaN.
Qed.

(** A score of 250 is drawn 100 wide, a score of -5 is drawn 0 wide. *)
Lemma barWidth_clamped_out_of_range :
  (same_number (ResumeAnalysis.barWidth 250) 100 ∧
   between 0 100 (ResumeAnalysis.barWidth 250)) ∧
  (same_number (ResumeAnalysis.barWidth (-5)) 0 ∧
   between 0 100 (ResumeAnalysis.barWidth (-5))).
Proof.
  split.
  - apply (proj1 barWidth_clamped (Finite 250)). discriminate.
  - apply (proj1 barWidth_clamped (Finite (-5))). discriminate.
Defined.

(** C10: the displayed overall score is the AI score when that is present
    and truthy; an absent or zero AI score gives way to the legacy prop, and
    that to 0 when it is absent or zero too, so that an AI score of 0 shows
    exactly what a missing one shows. *)
Theorem overallScore_fallback
    (resumeAnalysis : option ProcessedResume) (score : option number) :
  let ai := overall_score <$> (resumeAnalysis ≫= ai_analysis_scores) in
  let shown := ResumeAnalysis.overallScore resumeAnalysis score in
  (∀ v, ai = Some v → v ≠ NaN → ¬ is_zero v → shown = v) ∧
  ((ai = None ∨ ∃ z, ai = Some z ∧ is_zero z) →
     shown = ResumeAnalysis.overallScore None score ∧
     (∀ v, score = Some v → v ≠ NaN → ¬ is_zero v → shown = v) ∧
     ((score = None ∨ ∃ z, score = Some z ∧ is_zero z) → shown = 0%Q)).
Proof.
  unfold ResumeAnalysis.overallScore. cbv zeta.
  set (ai := overall_score <$> _). clearbody ai. split.
  - intros v -> Hn Hz.
    assert (truthy v = true) as Ht by (apply truthy_spec; tauto).
    simpl. rewrite Ht. simpl. rewrite Ht. reflexivity.
  - intros Hai.
    assert (js_or ai score = score) as ->.
    { destruct Hai as [-> | (z & -> & Hz)]; [reflexivity |].
      simpl. destruct (truthy z) eqn:Ht; [| reflexivity].
      apply truthy_spec in Ht. tauto. }
    split; [reflexivity |]. split.
    + intros v -> Hn Hz.
      assert (truthy v = true) as Ht by (apply truthy_spec; tauto).
      simpl. rewrite Ht. reflexivity.
    + intros [-> | (z & -> & Hz)]; [reflexivity |].
      simpl. destruct (truthy z) eqn:Ht; [| reflexivity].
      apply truthy_spec in Ht. tauto.
Qed.

(** An AI score of 0 next to a legacy score of 64 shows 64. *)
Lemma overallScore_fallback_zero_ai :
  ResumeAnalysis.overallScore (Some (Sample.resume (Some (Sample.scores 0)))) (Some (Finite 64))
    = ResumeAnalysis.overallScore None (Some (Finite 64)) ∧
  ResumeAnalysis.overallScore (Some (Sample.resume (Some (Sample.scores 0)))) (Some (Finite 64))
    = 64%Q.
Proof.
  pose proof (overallScore_fallback
                (Some (Sample.resume (Some (Sample.scores 0)))) (Some (Finite 64))) as [_ F].
  destruct F as (E & L & _).
  - right. exists 0%Q. split; [reflexivity | unfold is_zero; simpl; lra].
  - split; [exact E |].
    apply (L 64%Q); [reflexivity | discriminate | unfold is_zero; simpl; lra].
Defined.

(** ** Priority issues *)

Lemma isPriority_spec (r : ImprovementSuggestion) :
  JobMatchCard.isPriority r = true ↔ critical_or_high (priority r).
Proof.
  unfold JobMatchCard.isPriority, critical_or_high.
  destruct (priority r); split; intros; try tauto; try discriminate;
    destruct H as [|]; discriminate.
Qed.

Lemma isPriority_bool_decide (r : ImprovementSuggestion) :
  JobMatchCard.isPriority r = bool_decide (critical_or_high (priority r)).
Proof.
  destruct (JobMatchCard.isPriority r) eqn:E; symmetry.
  - apply bool_decide_eq_true, isPriority_spec, E.
  - apply bool_decide_eq_false. rewrite <- isPriority_spec. congruence.
Qed.

(** C6: a recommendation is a priority issue exactly when its priority is
    critical or high (high is, medium is not); the count on the card is the
    number of such recommendations in the list, shown when positive; and the
    score, colour and label of the card do not depend on the
    recommendations. *)
Theorem priority_issues (matchResult : ResumeJobMatchResult) :
  let rs := default [] (recommendations matchResult) in
  let n := length (List.filter (λ r, bool_decide (critical_or_high (priority r))) rs) in
  (∀ r, r ∈ JobMatchCard.prioritySuggestions matchResult
        ↔ r ∈ rs ∧ critical_or_high (priority r)) ∧
  (∀ r, priority r = high → JobMatchCard.isPriority r = true) ∧
  (∀ r, priority r = medium → JobMatchCard.isPriority r = false) ∧
  length (JobMatchCard.prioritySuggestions matchResult) = n ∧
  JobMatchCard.priorityIssues (JobMatchCard.header matchResult)
    = (if (0 <? n)%nat then Some n else None) ∧
  (∀ rs' : option (list ImprovementSuggestion),
     let other := {| match_score := match_score matchResult;
                     detailed_analysis := detailed_analysis matchResult;
                     recommendations := rs';
                     ai_insights := ai_insights matchResult;
                     confidence_score := confidence_score matchResult |} in
     JobMatchCard.badgeScore (JobMatchCard.header other) = match_score matchResult ∧
     JobMatchCard.badgeColor (JobMatchCard.header other)
       = JobMatchCard.badgeColor (JobMatchCard.header matchResult) ∧
     JobMatchCard.badgeText (JobMatchCard.header other)
       = JobMatchCard.badgeText (JobMatchCard.header matchResult)).
Proof.
  cbv zeta.
  assert (JobMatchCard.prioritySuggestions matchResult
          = List.filter (λ r, bool_decide (critical_or_high (priority r)))
                        (default [] (recommendations matchResult))) as E.
  { unfold JobMatchCard.prioritySuggestions.
    destruct (recommendations matchResult) as [rs|]; [| reflexivity]. simpl.
    apply List.filter_ext. intros r. apply isPriority_bool_decide. }
  split; [| split; [| split; [| split; [| split]]]].
  - intros r. rewrite E, !list_elem_of_In, List.filter_In, bool_decide_eq_true.
    reflexivity.
  - intros r Hr. apply isPriority_spec. right. exact Hr.
  - intros r Hr. unfold JobMatchCard.isPriority. rewrite Hr. reflexivity.
  - rewrite E. reflexivity.
  - unfold JobMatchCard.header. simpl. rewrite E. reflexivity.
  - intros rs'. repeat split.
Qed.

(** One high, one medium and one critical recommendation: two issues. *)
Lemma priority_issues_high_counts_medium_does_not :
  JobMatchCard.isPriority (Sample.advice high) = true ∧
  JobMatchCard.isPriority (Sample.advice medium) = false ∧
  JobMatchCard.priorityIssues
    (JobMatchCard.header
       (Sample.result 72 (Some [Sample.advice high; Sample.advice medium;
                                Sample.advice critical]))) = Some 2%nat.
Proof.
  pose proof (priority_issues
    (Sample.result 72 (Some [Sample.advice high; Sample.advice medium;
                             Sample.advice critical]))) as (_ & Hh & Hm & _ & Hn & _).
  split; [apply Hh; reflexivity |].
  split; [apply Hm; reflexivity |].
  exact Hn.
Defined.

(** ** Score buckets *)

Lemma classify_Excellent (s : number) :
  Buckets.classify s = Some Buckets.Excellent ↔ between 90 100 s.
Proof.
  unfold Buckets.classify, js_lt.
  destruct s as [| |q|]; simpl; try (split; [discriminate | tauto]).
  destruct (Qle_bool 90 q) eqn:E1; destruct (Qle_bool q 100) eqn:E2; simpl;
    try apply Qle_bool_iff in E1; try apply Qle_bool_iff in E2;
    try (apply not_true_iff_false in E1; rewrite Qle_bool_iff in E1);
    try (apply not_true_iff_false in E2; rewrite Qle_bool_iff in E2);
    repeat match goal with
    | |- context [Qle_bool ?a ?b] => destruct (Qle_bool a b)
    end; simpl; split; intros; try discriminate; try tauto.
Qed.

Lemma classify_cases (q : Q) :
  Buckets.classify q =
    if Qle_bool 90 q then (if Qle_bool q 100 then Some Buckets.Excellent else None)
    else if Qle_bool 75 q then Some Buckets.Good
    else if Qle_bool 60 q then Some Buckets.Fair
    else Some Buckets.Poor.
Proof.
  unfold Buckets.classify, js_lt. simpl.
  destruct (Qle_bool 90 q) eqn:E1; destruct (Qle_bool q 100) eqn:E2; simpl;
    try reflexivity;
    destruct (Qle_bool 75 q) eqn:E3; destruct (Qle_bool 60 q) eqn:E4; simpl;
    try reflexivity;
    exfalso;
    repeat match goal with
    | H : Qle_bool _ _ = true |- _ => apply Qle_bool_iff in H
    | H : Qle_bool _ _ = false |- _ =>
        apply not_true_iff_false in H; rewrite Qle_bool_iff in H
    end; lra.
Qed.

Ltac rational_cases :=
  repeat match goal with
  | |- context [Qle_bool ?a ?b] =>
      let E := fresh "E" in
      destruct (Qle_bool a b) eqn:E;
      [apply Qle_bool_iff in E
      |apply not_true_iff_false in E; rewrite Qle_bool_iff in E]
  end.

Ltac bucket_finish :=
  simpl in *;
  first [discriminate | reflexivity | lra | split; lra | exfalso; lra
        | match goal with H : _ ∧ _ |- _ => destruct H; exfalso; lra end].

Lemma classify_Good (s : number) :
  Buckets.classify s = Some Buckets.Good ↔ at_least 75 s ∧ below 90 s.
Proof.
  destruct s as [| |q|]; try (simpl; split; [discriminate | tauto]).
  rewrite classify_cases. simpl.
  rational_cases; split; intros; bucket_finish.
Qed.

Lemma classify_Fair (s : number) :
  Buckets.classify s = Some Buckets.Fair ↔ at_least 60 s ∧ below 75 s.
Proof.
  destruct s as [| |q|]; try (simpl; split; [discriminate | tauto]).
  rewrite classify_cases. simpl.
  rational_cases; split; intros; bucket_finish.
Qed.

Lemma classify_Poor (s : number) :
  Buckets.classify s = Some Buckets.Poor ↔ below 60 s.
Proof.
  destruct s as [| |q|]; try (simpl; split; [discriminate | tauto]).
  - simpl. tauto.
  - rewrite classify_cases. simpl.
    rational_cases; split; intros; bucket_finish.
Qed.

Lemma classify_in_range (s : number) :
  between 0 100 s → is_Some (Buckets.classify s).
Proof.
  destruct s as [| |q|]; simpl; try tauto. intros [H0 H100].
  rewrite classify_cases. rational_cases; try (eexists; reflexivity).
  exfalso; lra.
Qed.

Lemma one_bucket (s : number) :
  is_Some (Buckets.classify s) →
  (Nat.b2n (Buckets.is_bucket Buckets.Excellent s)
   + Nat.b2n (Buckets.is_bucket Buckets.Good s)
   + Nat.b2n (Buckets.is_bucket Buckets.Fair s)
   + Nat.b2n (Buckets.is_bucket Buckets.Poor s) = 1)%nat.
Proof.
  unfold Buckets.is_bucket. intros [b ->]. destruct b; reflexivity.
Qed.

Lemma tally_cons (b : Buckets.Bucket) (s : number) (scores : list number) :
  Buckets.tally b (s :: scores)
  = (Nat.b2n (Buckets.is_bucket b s) + Buckets.tally b scores)%nat.
Proof.
  unfold Buckets.tally. simpl. destruct (Buckets.is_bucket b s); reflexivity.
Qed.

Lemma histogram_total (scores : list number) :
  Forall (between 0 100) scores →
  let h := Buckets.histogram scores in
  (Buckets.excellent h + Buckets.good h + Buckets.fair h + Buckets.poor h
   = length scores)%nat.
Proof.
  simpl. induction 1 as [| s scores Hs _ IH]; [reflexivity |].
  rewrite !tally_cons. simpl length.
  pose proof (one_bucket s (classify_in_range s Hs)). lia.
Qed.

(** C2: the classification puts a score into excellent exactly on [90,100],
    good on [75,90), fair on [60,75) and poor below 60; a score in [0,100]
    has exactly one bucket; the four counts add up to the number of scores
    when these lie in [0,100]; and the scores 95, 72, 40 give one excellent,
    no good, one fair and one poor. *)
Theorem bucket_partition :
  (∀ s, Buckets.classify s = Some Buckets.Excellent ↔ between 90 100 s) ∧
  (∀ s, Buckets.classify s = Some Buckets.Good ↔ at_least 75 s ∧ below 90 s) ∧
  (∀ s, Buckets.classify s = Some Buckets.Fair ↔ at_least 60 s ∧ below 75 s) ∧
  (∀ s, Buckets.classify s = Some Buckets.Poor ↔ below 60 s) ∧
  (∀ s, between 0 100 s →
     ∃ b, Buckets.classify s = Some b ∧ ∀ b', Buckets.classify s = Some b' → b' = b) ∧
  (∀ results : list ResumeJobMatchResult,
     Forall (λ r, between 0 100 (match_score r)) results →
     let h := Buckets.histogram_of results in
     (Buckets.excellent h + Buckets.good h + Buckets.fair h + Buckets.poor h
      = length results)%nat) ∧
  Buckets.histogram_of [Sample.result 95 None; Sample.result 72 None; Sample.result 40 None]
    = {| Buckets.excellent := 1; Buckets.good := 0;
         Buckets.fair := 1; Buckets.poor := 1 |}.
Proof.
  split; [exact classify_Excellent |].
  split; [exact classify_Good |].
  split; [exact classify_Fair |].
  split; [exact classify_Poor |].
  split; [| split].
  - intros s Hs. destruct (classify_in_range s Hs) as [b Hb].
    exists b. split; [exact Hb | congruence].
  - intros results Hr. unfold Buckets.histogram_of.
    rewrite <- (length_fmap match_score results).
    apply histogram_total. apply Forall_fmap. exact Hr.
  - reflexivity.
Qed.

(** The boundary scores 100, 90, 75, 60 and 0 each have their bucket, and
    three in-range results are all counted. *)
Lemma bucket_partition_boundaries :
  Buckets.classify 100 = Some Buckets.Excellent ∧
  Buckets.classify 90 = Some Buckets.Excellent ∧
  Buckets.classify 75 = Some Buckets.Good ∧
  Buckets.classify 60 = Some Buckets.Fair ∧
  Buckets.classify 0 = Some Buckets.Poor ∧
  (let h := Buckets.histogram_of
              [Sample.result 95 None; Sample.result 72 None; Sample.result 40 None] in
   Buckets.excellent h + Buckets.good h + Buckets.fair h + Buckets.poor h = 3)%nat.
Proof.
  pose proof bucket_partition as (E & G & F & P & _ & T & _).
  split; [apply E; simpl; lra |].
  split; [apply E; simpl; lra |].
  split; [apply G; simpl; lra |].
  split; [apply F; simpl; lra |].
  split; [apply P; simpl; lra |].
  apply (T [Sample.result 95 None; Sample.result 72 None; Sample.result 40 None]).
  repeat constructor; simpl; lra.
Defined.

(** ** The keyed fold *)

(** The fold continued from an arbitrary map. *)
Lemma matchMap_fold_lookup (l : list (option Dashboard.Settled)) :
  ∀ (acc : gmap string ResumeJobMatchResult) (id : string) (m : ResumeJobMatchResult),
    NoDup (settled_ids l) →
    (foldl (λ matchMap result,
              match result with
              | Some result => <[Dashboard.jobId result := Dashboard.match_ result]> matchMap
              | None => matchMap
              end) acc l) !! id = Some m
    ↔ Some {| Dashboard.jobId := id; Dashboard.match_ := m |} ∈ l
      ∨ ((id ∉ settled_ids l) ∧ acc !! id = Some m).
Proof.
  unfold settled_ids.
  induction l as [| [e|] l IH]; intros acc id m Hnd; simpl.
  - rewrite elem_of_nil. split; [intros ?; right; split; [apply not_elem_of_nil | done] | tauto].
  - simpl in Hnd. apply NoDup_cons in Hnd as [Hfresh Hnd].
    rewrite IH by exact Hnd. rewrite elem_of_cons, not_elem_of_cons.
    destruct (decide (Dashboard.jobId e = id)) as [<- | Hne].
    + rewrite lookup_insert_eq. split.
      * intros [Hin | [_ Heq]].
        -- exfalso. apply Hfresh.
           apply list_elem_of_fmap. eexists. split; [| apply list_elem_of_omap].
           2:{ eexists. split; [exact Hin | reflexivity]. }
           reflexivity.
        -- left. left. destruct e. simpl in *. congruence.
      * intros [[Heq | Hin] | [[Hne _] _]]; [| left; exact Hin | congruence].
        right. split; [exact Hfresh | injection Heq as <-; reflexivity].
    + rewrite lookup_insert_ne by exact Hne. split.
      * intros [Hin | [Hnot Hacc]]; [left; right; exact Hin |].
        right. split; [split; [congruence | exact Hnot] | exact Hacc].
      * intros [[Heq | Hin] | [[_ Hnot] Hacc]].
        -- inversion Heq; subst. simpl in Hne. congruence.
        -- left. exact Hin.
        -- right. split; assumption.
  - simpl in Hnd. rewrite IH by exact Hnd. rewrite elem_of_cons.
    split; [intros [?|?]; [left; right; assumption | right; assumption] |].
    intros [[Heq | Hin] | Hr]; [discriminate | left; exact Hin | right; exact Hr].
Qed.

Lemma matchMap_lookup (l : list (option Dashboard.Settled)) (id : string)
    (m : ResumeJobMatchResult) :
  NoDup (settled_ids l) →
  Dashboard.matchMap l !! id = Some m
  ↔ Some {| Dashboard.jobId := id; Dashboard.match_ := m |} ∈ l.
Proof.
  intros Hnd. unfold Dashboard.matchMap. rewrite matchMap_fold_lookup by exact Hnd.
  rewrite lookup_empty. split; [intros [? | [_ ?]]; [assumption | discriminate] | tauto].
Qed.

Lemma settled_ids_Permutation (l l' : list (option Dashboard.Settled)) :
  l ≡ₚ l' → settled_ids l ≡ₚ settled_ids l'.
Proof. intros Hp. unfold settled_ids. rewrite Hp. reflexivity. Qed.

(** C9: when the settled results carry pairwise distinct job identifiers,
    every permutation of them folds to the same map, whose entries are
    exactly the results that did not fail, one per job identifier. *)
Theorem matchMap_order_independent (l l' : list (option Dashboard.Settled)) :
  NoDup (settled_ids l) →
  l ≡ₚ l' →
  Dashboard.matchMap l' = Dashboard.matchMap l ∧
  (∀ id m, Dashboard.matchMap l !! id = Some m
           ↔ Some {| Dashboard.jobId := id; Dashboard.match_ := m |} ∈ l) ∧
  (∀ id m1 m2, Some {| Dashboard.jobId := id; Dashboard.match_ := m1 |} ∈ l →
               Dashboard.matchMap l !! id = Some m2 → m1 = m2).
Proof.
  intros Hnd Hp.
  assert (NoDup (settled_ids l')) as Hnd'.
  { rewrite <- (settled_ids_Permutation l l' Hp). exact Hnd. }
  split; [| split].
  - apply map_eq. intros id. apply option_eq. intros m.
    rewrite !matchMap_lookup by assumption. rewrite Hp. reflexivity.
  - intros id m. apply matchMap_lookup, Hnd.
  - intros id m1 m2 Hin Hm. apply matchMap_lookup in Hin; [congruence | exact Hnd].
Qed.

(** Three settled results, one of them failed, folded in two orders. *)
Lemma matchMap_order_independent_sample :
  let a := Some {| Dashboard.jobId := "j1"; Dashboard.match_ := Sample.result 95 None |} in
  let b := None in
  let c := Some {| Dashboard.jobId := "j3"; Dashboard.match_ := Sample.result 40 None |} in
  Dashboard.matchMap [c; a; b] = Dashboard.matchMap [a; b; c] ∧
  Dashboard.matchMap [a; b; c] !! "j1" = Some (Sample.result 95 None).
Proof.
  intros a b c.
  assert (NoDup (settled_ids [a; b; c])) as Hnd.
  { unfold settled_ids. simpl. apply NoDup_cons. split; [| apply NoDup_singleton].
    intros Hin. apply list_elem_of_singleton in Hin. discriminate. }
  assert ([a; b; c] ≡ₚ [c; a; b]) as Hp.
  { symmetry. apply (Permutation_cons_append [a; b] c). }
  destruct (matchMap_order_independent [a; b; c] [c; a; b] Hnd Hp) as (E & L & _).
  split; [exact E |].
  apply L. apply elem_of_cons. left. reflexivity.
Defined.

(** ** The API client *)

(** Run a wrapper on the three kinds of reply. *)
Ltac run_wrapper :=
  intros log;
  unfold one_call_outcome, fetch, response_text, response_json, throw, catch,
    mbind, ST_bind, mret, ST_ret; simpl;
  destruct (network (length log) _) as [e | response]; [reflexivity |];
  destruct (ok response); simpl; [| reflexivity];
  destruct (json_parse (text response)); reflexivity.

Section ApiProperties.
Context {platform : Platform} {schemas : Schemas}.


Lemma getResumeJobs_one_call resumeId :
  one_call (Api.getResumeJobs resumeId) (Api.getResumeJobs_request resumeId)
           "Failed to get resume jobs: " " - " (default []).
Proof. unfold Api.getResumeJobs. run_wrapper. Qed.




Lemma processJobEnhanced_one_call jobDescription resumeId :
  one_call (Api.processJobEnhanced jobDescription resumeId)
           (Api.processJobEnhanced_request jobDescription resumeId)
           "Enhanced job processing failed: " " - " id.
Proof. unfold Api.processJobEnhanced. run_wrapper. Qed.

Lemma analyzeResumeJobMatch_one_call request :
  one_call (Api.analyzeResumeJobMatch request) (Api.analyzeResumeJobMatch_request request)
           "Match analysis failed: " " - " id.
Proof. unfold Api.analyzeResumeJobMatch. run_wrapper. Qed.


Lemma getDashboardData_one_call resumeId :
  one_call (Api.getDashboardData resumeId) (Api.getDashboardData_request resumeId)
           "Failed to get dashboard data: " " - " id.
Proof. unfold Api.getDashboardData. run_wrapper. Qed.

Lemma getBulkAnalysis_one_call resumeId request :
  one_call (Api.getBulkAnalysis resumeId request)
           (Api.getBulkAnalysis_request resumeId request)
           "Bulk analysis failed: " " - " id.
Proof. unfold Api.getBulkAnalysis. run_wrapper. Qed.


Lemma getProcessedResume_one_call resumeId :
  one_call (Api.getProcessedResume resumeId) (Api.getProcessedResume_request resumeId)
           "Failed to get resume data: " " - " id.
Proof. unfold Api.getProcessedResume. run_wrapper. Qed.


End ApiProperties.

Lemma settle_all_cons {S A} (p : ST S A) (ps : list (ST S A)) (s : S) :
  settle_all (p :: ps) s
  = let '(r, s1) := p s in let '(rs, s2) := settle_all ps s1 in (r :: rs, s2).
Proof. reflexivity. Qed.

Section ApiFanOut.
Context {platform : Platform} {schemas : Schemas}.

Lemma uploadJobs_promise resumeId description :
  one_call (T := JobUploadResponse)
    (response ← fetch (Api.uploadJobs_request resumeId description);
     if negb (ok response) then
       errorText ← response_text response;
       throw (Error ("Job upload failed: " +:+ pretty (status response)
                       +:+ " - " +:+ errorText))
     else response_json response)
    (Api.uploadJobs_request resumeId description)
    "Job upload failed: " " - " id.
Proof. run_wrapper. Qed.

Lemma uploadJobs_settle_all resumeId (jobDescriptions : list string) :
  ∀ log,
    settle_all
      ((λ description,
          response ← fetch (Api.uploadJobs_request resumeId description);
          if negb (ok response) then
            errorText ← response_text response;
            throw (Error ("Job upload failed: " +:+ pretty (status response)
                            +:+ " - " +:+ errorText))
          else response_json response) <$> jobDescriptions) log
    = (uploadOutcomes resumeId log jobDescriptions,
       log ++ (Api.uploadJobs_request resumeId <$> jobDescriptions)).
Proof.
  induction jobDescriptions as [| description rest IH]; intros log.
  - simpl. rewrite app_nil_r. reflexivity.
  - rewrite !fmap_cons, settle_all_cons. cbv beta.
    rewrite (uploadJobs_promise resumeId description log), IH, <- app_assoc.
    reflexivity.
Qed.

Lemma uploadJobs_run jobDescriptions resumeId log :
  Api.uploadJobs jobDescriptions resumeId log
  = (match first_rejection 0 (uploadOutcomes resumeId log jobDescriptions) with
     | Some (_, e) => inl e
     | None => inr (values (uploadOutcomes resumeId log jobDescriptions))
     end,
     log ++ (Api.uploadJobs_request resumeId <$> jobDescriptions)).
Proof.
  unfold Api.uploadJobs, Promise_all. rewrite uploadJobs_settle_all.
  destruct (first_rejection 0 _) as [[? ?]|]; reflexivity.
Qed.



End ApiFanOut.




(** ** The dashboard aggregation *)

Lemma first_rejection_fulfilled {platform : Platform} {A} (l : list A) (i : nat) :
  first_rejection i (inr <$> l) = None.
Proof. revert i. induction l as [| a l IH]; intros i; simpl; [reflexivity | apply IH]. Qed.

Lemma values_fulfilled {A} (l : list A) : values (inr <$> l) = l.
Proof.
  unfold values. induction l as [| a l IH]; simpl; [reflexivity |].
  f_equal. exact IH.
Qed.

Section DashboardProperties.
Context {platform : Platform} {schemas : Schemas}.

Lemma catch_call {A} (p : Net A) (d : A) (st : Dashboard.State) (log : list Request) :
  catch (Dashboard.call p) (λ _, mret d) (st, log)
  = (inr (match outcome p log with inr a => a | inl _ => d end), (st, (p log).2)).
Proof.
  unfold catch, Dashboard.call, outcome. destruct (p log) as [[e | a] log']; reflexivity.
Qed.

Lemma catch_Some_call {A} (p : Net A) (st : Dashboard.State) (log : list Request) :
  catch (Some <$> Dashboard.call p) (λ _, mret None) (st, log)
  = (inr (match outcome p log with inr a => Some a | inl _ => None end),
     (st, (p log).2)).
Proof.
  unfold catch, Dashboard.call, outcome, fmap, ST_fmap.
  destruct (p log) as [[e | a] log']; reflexivity.
Qed.

Lemma matchPromise_run resumeId job (st : Dashboard.State) (log : list Request) :
  Dashboard.matchPromise resumeId job (st, log)
  = (inr (settle job (outcome (Api.analyzeResumeJobMatch
                                 (Dashboard.matchRequest resumeId job)) log)),
     (st, log ++ [Api.analyzeResumeJobMatch_request
                    (Dashboard.matchRequest resumeId job)])).
Proof.
  unfold Dashboard.matchPromise, catch, Dashboard.call, outcome, mbind, ST_bind.
  rewrite (analyzeResumeJobMatch_one_call (Dashboard.matchRequest resumeId job) log).
  simpl. destruct (one_call_outcome _ _ _ _); reflexivity.
Qed.

Lemma matchPromises_settle resumeId (jobs : list ProcessedJob) (st : Dashboard.State) :
  ∀ log,
    settle_all (Dashboard.matchPromise resumeId <$> jobs) (st, log)
    = (inr <$> settledFrom resumeId log jobs,
       (st, log ++ matchRequests resumeId jobs)).
Proof.
  induction jobs as [| job jobs IH]; intros log.
  - simpl. rewrite app_nil_r. reflexivity.
  - rewrite fmap_cons, settle_all_cons, matchPromise_run, IH.
    unfold matchRequests. rewrite fmap_cons, <- app_assoc. reflexivity.
Qed.

Lemma matchPromises_all resumeId (jobs : list ProcessedJob) (st : Dashboard.State) log :
  Promise_all (Dashboard.matchPromise resumeId <$> jobs) (st, log)
  = (inr (settledFrom resumeId log jobs), (st, log ++ matchRequests resumeId jobs)).
Proof.
  unfold Promise_all. rewrite matchPromises_settle, first_rejection_fulfilled,
    values_fulfilled. reflexivity.
Qed.

Lemma dashboard_call resumeId log :
  Api.getDashboardData resumeId log
  = (dashboardOutcome resumeId log, log ++ take 1 (initialRequests resumeId)).
Proof.
  unfold dashboardOutcome, outcome.
  rewrite (getDashboardData_one_call resumeId log). reflexivity.
Qed.

Lemma jobs_call resumeId log :
  Api.getResumeJobs resumeId (log ++ take 1 (initialRequests resumeId))
  = (jobsOutcome resumeId log, log ++ take 2 (initialRequests resumeId)).
Proof.
  unfold jobsOutcome, outcome.
  rewrite (getResumeJobs_one_call resumeId). cbn [fst].
  rewrite <- app_assoc. reflexivity.
Qed.

Lemma bulk_call resumeId log :
  Api.getBulkAnalysis resumeId None (log ++ take 2 (initialRequests resumeId))
  = (bulkOutcome resumeId log, log ++ initialRequests resumeId).
Proof.
  unfold bulkOutcome, outcome.
  rewrite (getBulkAnalysis_one_call resumeId None). cbn [fst].
  rewrite <- app_assoc. reflexivity.
Qed.

(** The first step never rejects. *)
Lemma initial_fetches_run resumeId (st : Dashboard.State) (log : list Request) :
  Promise_all3
    (catch (Some <$> Dashboard.call (Api.getDashboardData resumeId)) (λ _, mret None))
    (catch (Dashboard.call (Api.getResumeJobs resumeId)) (λ _, mret []))
    (catch (Some <$> Dashboard.call (Api.getBulkAnalysis resumeId None)) (λ _, mret None))
    (st, log)
  = (inr (match dashboardOutcome resumeId log with inr d => Some d | inl _ => None end,
          fetchedJobs resumeId log,
          match bulkOutcome resumeId log with inr b => Some b | inl _ => None end),
     (st, log ++ initialRequests resumeId)).
Proof.
  unfold Promise_all3.
  rewrite catch_Some_call. unfold outcome at 1.
  rewrite dashboard_call. cbn [fst snd].
  rewrite catch_call. unfold outcome at 1.
  rewrite jobs_call. cbn [fst snd].
  rewrite catch_Some_call. unfold outcome at 1.
  rewrite bulk_call. cbn [fst snd].
  reflexivity.
Qed.

(** The state [loadDashboardData] leaves behind. *)
Lemma loadDashboardData_run resumeId (st : Dashboard.State) (log : list Request) :
  Dashboard.loadDashboardData resumeId (st, log)
  = (inr (),
     ({| Dashboard.dashboardData :=
           match dashboardOutcome resumeId log with inr d => Some d | inl _ => None end;
         Dashboard.bulkAnalysis :=
           match bulkOutcome resumeId log with inr b => Some b | inl _ => None end;
         Dashboard.recentJobs := keptJobs resumeId log;
         Dashboard.jobMatches :=
           if (0 <? length (fetchedJobs resumeId log))%nat then
             Dashboard.matchMap
               (settledFrom resumeId (log ++ initialRequests resumeId)
                            (keptJobs resumeId log))
           else Dashboard.jobMatches st;
         Dashboard.loading := false;
         Dashboard.error := Dashboard.error st;
         Dashboard.activeTab := Dashboard.activeTab st |},
      log ++ initialRequests resumeId
          ++ matchRequests resumeId (keptJobs resumeId log))).
Proof.
  unfold Dashboard.loadDashboardData, try_catch_finally.
  unfold catch at 1. unfold mbind at 1, ST_bind at 1.
  unfold Dashboard.setLoading at 1, Dashboard.update at 1.
  unfold mbind at 1, ST_bind at 1.
  rewrite initial_fetches_run.
  unfold Dashboard.setDashboardData, Dashboard.setRecentJobs,
    Dashboard.setBulkAnalysis, Dashboard.setJobMatches, Dashboard.setLoading,
    Dashboard.update, mbind, ST_bind, mret, ST_ret.
  cbn [Dashboard.dashboardData Dashboard.bulkAnalysis Dashboard.recentJobs
       Dashboard.jobMatches Dashboard.loading Dashboard.error Dashboard.activeTab].
  fold (keptJobs resumeId log).
  destruct (0 <? length (fetchedJobs resumeId log))%nat eqn:E.
  - rewrite matchPromises_all. rewrite <- app_assoc. reflexivity.
  - apply Nat.ltb_ge in E.
    assert (keptJobs resumeId log = []) as ->.
    { unfold keptJobs. destruct (fetchedJobs resumeId log); [reflexivity |].
      simpl in E. lia. }
    unfold matchRequests. rewrite fmap_nil, app_nil_r. reflexivity.
Qed.

End DashboardProperties.

Section Aggregation.
Context {platform : Platform} {schemas : Schemas}.

Lemma settledFrom_lookup resumeId (jobs : list ProcessedJob) :
  ∀ log i,
    settledFrom resumeId log jobs !! i
    = (λ job, settle job
                (outcome (Api.analyzeResumeJobMatch (Dashboard.matchRequest resumeId job))
                         (log ++ matchRequests resumeId (take i jobs))))
      <$> jobs !! i.
Proof.
  induction jobs as [| job jobs IH]; intros log i; [reflexivity |].
  destruct i as [| i]; simpl.
  - rewrite app_nil_r. reflexivity.
  - rewrite IH, <- app_assoc. reflexivity.
Qed.

Lemma settledFrom_ids resumeId (jobs : list ProcessedJob) :
  ∀ log, settled_ids (settledFrom resumeId log jobs) `sublist_of` (job_id <$> jobs).
Proof.
  unfold settled_ids.
  induction jobs as [| job jobs IH]; intros log; simpl; [constructor |].
  destruct (outcome _ log) as [e | m]; simpl.
  - apply sublist_cons, IH.
  - apply sublist_skip, IH.
Qed.

Lemma kept_settled resumeId log i job :
  keptJobs resumeId log !! i = Some job →
  settledFrom resumeId (log ++ initialRequests resumeId) (keptJobs resumeId log) !! i
  = Some (settle job (matchOutcome resumeId log i job)).
Proof.
  intros Hi. rewrite settledFrom_lookup, Hi. unfold matchOutcome.
  rewrite <- app_assoc. reflexivity.
Qed.

Lemma settled_from_kept resumeId log id m :
  Some {| Dashboard.jobId := id; Dashboard.match_ := m |}
    ∈ settledFrom resumeId (log ++ initialRequests resumeId) (keptJobs resumeId log) →
  ∃ i job, keptJobs resumeId log !! i = Some job ∧ job_id job = id
           ∧ matchOutcome resumeId log i job = inr m.
Proof.
  intros Hin. apply list_elem_of_lookup in Hin as [i Hi].
  destruct (keptJobs resumeId log !! i) as [job |] eqn:Hjob.
  - rewrite (kept_settled _ _ _ _ Hjob) in Hi. injection Hi as Hi.
    exists i, job. split; [exact Hjob |].
    destruct (matchOutcome resumeId log i job) as [e | m']; [discriminate |].
    simpl in Hi. injection Hi as -> ->. split; reflexivity.
  - rewrite settledFrom_lookup, Hjob in Hi. discriminate.
Qed.

(** The map of matches after a load that kept at least one job. *)
Lemma loaded_jobMatches resumeId (st : Dashboard.State) log :
  keptJobs resumeId log ≠ [] →
  Dashboard.jobMatches (loaded resumeId st log).1
  = Dashboard.matchMap
      (settledFrom resumeId (log ++ initialRequests resumeId) (keptJobs resumeId log)).
Proof.
  intros Hne. unfold loaded. rewrite loadDashboardData_run. cbn [fst snd Dashboard.jobMatches].
  destruct (0 <? length (fetchedJobs resumeId log))%nat eqn:E; [reflexivity |].
  apply Nat.ltb_ge in E. exfalso. apply Hne. unfold keptJobs.
  destruct (fetchedJobs resumeId log); [reflexivity | simpl in E; lia].
Qed.

End Aggregation.

(** ** Reads of the map of matches *)

Lemma proto_in_Object_prototype : "__proto__" ∈ JsObject.Object_prototype.
Proof.
  unfold JsObject.Object_prototype.
  do 11 (apply elem_of_cons; right). apply elem_of_cons. left. reflexivity.
Qed.

(** A uuid names no property of [Object.prototype]. *)
Lemma uuid_plain_id (id : string) : uuid id = true → plain_id id.
Proof.
  intros Huuid Hin. unfold JsObject.Object_prototype in Hin.
  repeat (apply elem_of_cons in Hin as [-> | Hin]; [vm_compute in Huuid; discriminate |]).
  apply elem_of_nil in Hin. exact Hin.
Qed.

Lemma uuid_sample :
  uuid "123e4567-e89b-12d3-a456-426614174000" = true
  ∧ plain_id "123e4567-e89b-12d3-a456-426614174000".
Proof. split; [reflexivity | apply uuid_plain_id; reflexivity]. Qed.

(** While the prototype is untouched, a read at a plain identifier finds
    the own property or nothing. *)
Lemma read_own_property (object : gmap string ResumeJobMatchResult) (key : string) :
  plain_id key →
  object !! "__proto__" = None →
  JsObject.read object key
  = match object !! key with
    | Some m => JsObject.Match m
    | None => JsObject.Undefined
    end.
Proof.
  intros Hplain Hproto. unfold JsObject.read.
  destruct (decide (key = "__proto__")) as [-> | _].
  - exfalso. apply Hplain, proto_in_Object_prototype.
  - destruct (object !! key); [reflexivity |].
    rewrite Hproto. unfold JsObject.inherited.
    destruct (decide (key ∈ JsObject.Object_prototype)) as [Hin | _]; [| reflexivity].
    exfalso. apply Hplain, Hin.
Qed.

Lemma omap_imap {A B} (g : A → option B) (l : list A) :
  ∀ h : nat → A → option B,
    (∀ i x, l !! i = Some x → g x = h i x) →
    omap g l = omap id (imap h l).
Proof.
  induction l as [| a l IH]; intros h Hgh; [reflexivity |].
  cbn [omap list_omap imap]. rewrite (Hgh 0%nat a eq_refl). unfold id at 1.
  destruct (h 0%nat a).
  - f_equal. apply IH. intros i x Hi. apply (Hgh (S i)), Hi.
  - apply IH. intros i x Hi. apply (Hgh (S i)), Hi.
Qed.

Section Entries.
Context {platform : Platform} {schemas : Schemas}.

(** The own properties of the map after a load that kept at least one job,
    the kept identifiers being pairwise distinct. *)
Lemma loaded_entries resumeId (st : Dashboard.State) log :
  let kept := keptJobs resumeId log in
  let st' := (loaded resumeId st log).1 in
  kept ≠ [] →
  NoDup (job_id <$> kept) →
  (∀ i job, kept !! i = Some job →
     Dashboard.jobMatches st' !! job_id job
     = match matchOutcome resumeId log i job with
       | inr m => Some m
       | inl _ => None
       end) ∧
  (∀ id, id ∉ job_id <$> kept → Dashboard.jobMatches st' !! id = None).
Proof.
  intros kept st' Hne Hnd.
  assert (NoDup (settled_ids
            (settledFrom resumeId (log ++ initialRequests resumeId) kept))) as Hnd'.
  { eapply sublist_NoDup; [exact Hnd | apply settledFrom_ids]. }
  unfold st'. rewrite loaded_jobMatches by exact Hne. fold kept.
  split.
  - intros i job Hi.
    destruct (matchOutcome resumeId log i job) as [e | m] eqn:Ho.
    + apply eq_None_not_Some. intros [m Hm].
      apply matchMap_lookup in Hm; [| exact Hnd'].
      apply settled_from_kept in Hm as (i' & job' & Hi' & Hid & Ho').
      assert (i' = i) as ->.
      { eapply (NoDup_lookup (job_id <$> kept)); [exact Hnd | |];
          rewrite list_lookup_fmap.
        - fold kept in Hi'. rewrite Hi'. simpl. rewrite Hid. reflexivity.
        - rewrite Hi. reflexivity. }
      fold kept in Hi'. rewrite Hi in Hi'. injection Hi' as <-. congruence.
    + apply matchMap_lookup; [exact Hnd' |].
      apply list_elem_of_lookup. exists i.
      unfold kept. rewrite (kept_settled _ _ _ _ Hi), Ho. reflexivity.
  - intros id Hid. apply eq_None_not_Some. intros [m Hm].
    apply matchMap_lookup in Hm; [| exact Hnd'].
    apply settled_from_kept in Hm as (i' & job' & Hi' & <- & _).
    apply Hid. apply list_elem_of_fmap. exists job'. split; [reflexivity |].
    apply list_elem_of_lookup. exists i'. exact Hi'.
Qed.

Lemma plain_ids_exclude_proto (kept : list ProcessedJob) :
  Forall (λ job, plain_id (job_id job)) kept → "__proto__" ∉ job_id <$> kept.
Proof.
  intros Hplain Hin. apply list_elem_of_fmap in Hin as (job & Hid & Hjob).
  rewrite Forall_forall in Hplain. apply (Hplain job Hjob).
  rewrite <- Hid. apply proto_in_Object_prototype.
Qed.

(** What [jobMatches[job.job_id]] reads for a kept job after such a load,
    the kept identifiers being plain as well. *)
Lemma loaded_reads resumeId (st : Dashboard.State) log :
  let kept := keptJobs resumeId log in
  let st' := (loaded resumeId st log).1 in
  kept ≠ [] →
  NoDup (job_id <$> kept) →
  Forall (λ job, plain_id (job_id job)) kept →
  ∀ i job, kept !! i = Some job →
    JsObject.read (Dashboard.jobMatches st') (job_id job)
    = match matchOutcome resumeId log i job with
      | inr m => JsObject.Match m
      | inl _ => JsObject.Undefined
      end.
Proof.
  intros kept st' Hne Hnd Hplain i job Hi.
  destruct (loaded_entries resumeId st log Hne Hnd) as [Hkept Hother].
  fold kept st' in Hkept, Hother.
  rewrite read_own_property.
  - rewrite (Hkept i job Hi). destruct (matchOutcome resumeId log i job); reflexivity.
  - rewrite Forall_forall in Hplain. apply Hplain.
    apply list_elem_of_lookup. exists i. exact Hi.
  - apply Hother, plain_ids_exclude_proto, Hplain.
Qed.

End Entries.




(** C4: whatever the three initial fetches do, the load does not throw and
    leaves the page-level error as it was; each of the three outcomes is
    made from the network's reply to its own request alone, and each section
    of the state is made from its own outcome alone: the fetched value on
    success, and null, the empty list and null on failure. *)
Theorem initial_fetches_isolated {platform : Platform} {schemas : Schemas}
    (resumeId : string) (st : Dashboard.State) (log : list Request) :
  let st' := (loaded resumeId st log).1 in
  let n := length log in
  outcome (Dashboard.loadDashboardData resumeId) (st, log) = inr () ∧
  Dashboard.error st' = Dashboard.error st ∧
  Dashboard.loading st' = false ∧
  dashboardOutcome resumeId log
    = one_call_outcome "Failed to get dashboard data: " " - " id
        (network n (Api.getDashboardData_request resumeId)) ∧
  jobsOutcome resumeId log
    = one_call_outcome "Failed to get resume jobs: " " - " (default [])
        (network (n + 1) (Api.getResumeJobs_request resumeId)) ∧
  bulkOutcome resumeId log
    = one_call_outcome "Bulk analysis failed: " " - " id
        (network (n + 2) (Api.getBulkAnalysis_request resumeId None)) ∧
  Dashboard.dashboardData st'
    = match dashboardOutcome resumeId log with inr d => Some d | inl _ => None end ∧
  Dashboard.recentJobs st'
    = take 6 (match jobsOutcome resumeId log with inr jobs => jobs | inl _ => [] end) ∧
  Dashboard.bulkAnalysis st'
    = match bulkOutcome resumeId log with inr b => Some b | inl _ => None end.
Proof.
  cbv zeta. unfold loaded, outcome at 1. rewrite loadDashboardData_run.
  cbn [fst snd Dashboard.error Dashboard.loading Dashboard.dashboardData
       Dashboard.recentJobs Dashboard.bulkAnalysis].
  repeat match goal with |- _ ∧ _ => split end; try reflexivity.
  - unfold dashboardOutcome, outcome.
    rewrite (getDashboardData_one_call resumeId log). reflexivity.
  - unfold jobsOutcome, outcome. rewrite (getResumeJobs_one_call resumeId).
    cbn [fst]. rewrite length_app. reflexivity.
  - unfold bulkOutcome, outcome. rewrite (getBulkAnalysis_one_call resumeId None).
    cbn [fst]. rewrite length_app. reflexivity.
Qed.

(** The dashboard answers 500 and the bulk fetch fails, while the job list
    arrives: only the job list is populated and no error is set. *)
Lemma initial_fetches_isolated_sample :
  let st' := (loaded (platform := Sample.platform Sample.only_jobs_arrive)
                     (schemas := Sample.schemas) "r1" Dashboard.initialState []).1 in
  Dashboard.dashboardData st' = None ∧
  Dashboard.recentJobs st' = [Sample.job "j1"; Sample.job "j2"] ∧
  Dashboard.bulkAnalysis st' = None ∧
  Dashboard.error st' = None.
Proof.
  pose proof (initial_fetches_isolated
                (platform := Sample.platform Sample.only_jobs_arrive)
                (schemas := Sample.schemas) "r1" Dashboard.initialState [])
    as (_ & He & _ & _ & _ & _ & Hd & Hj & Hb).
  cbv zeta. rewrite Hd, Hj, Hb, He. repeat split.
Defined.

Lemma matchCards_sublist {schemas : Schemas} (st : Dashboard.State) :
  (Dashboard.matchCards st).*1 `sublist_of` Dashboard.recentJobs st.
Proof.
  unfold Dashboard.matchCards.
  induction (Dashboard.recentJobs st) as [| job kept IH]; [constructor |].
  cbn [omap list_omap].
  destruct (JsObject.truthyValue
              (JsObject.read (Dashboard.jobMatches st) (job_id job))).
  - rewrite fmap_cons. apply sublist_skip, IH.
  - apply sublist_cons, IH.
Qed.

(** C8, as amended: the jobs recorded as recent jobs are the first
    min(6, length) jobs of the list the aggregation works with, in the
    list's order; after the three initial requests the load issues one
    match-analysis request per kept job, the i-th being the POST to
    /api/v1/resumes/analyze-match that names the resume and the i-th job,
    and no request beyond the sixth; and, the kept identifiers being
    pairwise distinct and plain, the cards shown are those of the kept jobs
    whose request succeeded, in order, each with the result its request
    returned. *)
Theorem display_cap {platform : Platform} {schemas : Schemas}
    (resumeId : string) (st : Dashboard.State) (log : list Request) :
  let jobs := fetchedJobs resumeId log in
  let kept := take 6 jobs in
  let st' := (loaded resumeId st log).1 in
  let issued := drop (length log + 3) (loaded resumeId st log).2 in
  Dashboard.recentJobs st' = kept ∧
  length kept = (6 `min` length jobs)%nat ∧
  take (length log + 3) (loaded resumeId st log).2 = log ++ initialRequests resumeId ∧
  length issued = (6 `min` length jobs)%nat ∧
  (∀ i job, (i < 6)%nat → jobs !! i = Some job →
     issued !! i
     = Some {| url := API_URL +:+ "/api/v1/resumes/analyze-match";
               method := "POST";
               headers := [("Content-Type", "application/json")];
               body := TextBody (JSON_stringify
                         (JObject [("resume_id", JString resumeId);
                                   ("job_id", JString (job_id job));
                                   ("include_recommendations", JBool true);
                                   ("include_ai_insights", JBool true)])) |}) ∧
  (∀ i, (6 ≤ i)%nat → issued !! i = None) ∧
  (NoDup (job_id <$> kept) →
   Forall (λ job, plain_id (job_id job)) kept →
   Dashboard.matchCards st'
   = omap id (imap (λ i job,
                      match matchOutcome resumeId log i job with
                      | inr m => Some (job, JsObject.Match m)
                      | inl _ => None
                      end) kept)).
Proof.
  cbv zeta. unfold loaded. rewrite loadDashboardData_run.
  cbn [fst snd Dashboard.recentJobs].
  assert (length (log ++ initialRequests resumeId) = (length log + 3)%nat) as Hlen.
  { rewrite length_app. reflexivity. }
  rewrite app_assoc, <- Hlen, take_app_length, drop_app_length.
  unfold matchRequests.
  split; [reflexivity |].
  split; [apply length_take |].
  split; [reflexivity |].
  split; [rewrite length_fmap; apply length_take |].
  split; [| split].
  - intros i job Hi Hjob. unfold keptJobs.
    rewrite list_lookup_fmap, lookup_take_lt by exact Hi. rewrite Hjob. reflexivity.
  - intros i Hi. unfold keptJobs.
    rewrite list_lookup_fmap, lookup_take_ge by exact Hi. reflexivity.
  - intros Hnd Hplain. unfold Dashboard.matchCards. cbn [Dashboard.recentJobs].
    apply omap_imap. intros i job Hi. cbv zeta.
    assert (keptJobs resumeId log ≠ []) as Hne.
    { intros E. unfold keptJobs in E. rewrite E in Hi. discriminate. }
    pose proof (loaded_reads resumeId st log Hne Hnd Hplain i job Hi) as Hread.
    unfold loaded in Hread. rewrite loadDashboardData_run in Hread.
    cbn [fst snd Dashboard.jobMatches] in Hread.
    cbn [Dashboard.jobMatches]. rewrite Hread.
    destruct (matchOutcome resumeId log i job); reflexivity.
Qed.

Lemma eight_ids_distinct_and_plain :
  NoDup ["j1"; "j2"; "j3"; "j4"; "j5"; "j6"] ∧
  Forall (λ job, plain_id (job_id job))
         (Sample.job <$> ["j1"; "j2"; "j3"; "j4"; "j5"; "j6"]).
Proof.
  split.
  - apply (bool_decide_unpack _). vm_compute. exact I.
  - apply (bool_decide_unpack _). vm_compute. exact I.
Qed.

(** Eight jobs are listed: six are kept, six analyses are requested, the
    sixth for j6 and not for j1, the position after it holds no request,
    and six cards are shown. *)
Lemma display_cap_eight_jobs :
  let run := loaded (platform := Scenarios.platform Sample.eight_jobs)
                    (schemas := Sample.schemas) "r1" Dashboard.initialState [] in
  let request := λ id,
    {| url := "http://localhost:8001/api/v1/resumes/analyze-match";
       method := "POST";
       headers := [("Content-Type", "application/json")];
       body := TextBody (Scenarios.stringify
                 (JObject [("resume_id", JString "r1");
                           ("job_id", JString id);
                           ("include_recommendations", JBool true);
                           ("include_ai_insights", JBool true)])) |} in
  Dashboard.recentJobs run.1
    = Sample.job <$> ["j1"; "j2"; "j3"; "j4"; "j5"; "j6"] ∧
  drop 3 run.2 !! 0%nat = Some (request "j1") ∧
  drop 3 run.2 !! 5%nat = Some (request "j6") ∧
  request "j6" ≠ request "j1" ∧
  drop 3 run.2 !! 6%nat = None ∧
  Dashboard.matchCards run.1
    = [(Sample.job "j1", JsObject.Match (Sample.result 95 None));
       (Sample.job "j2", JsObject.Match (Sample.result 72 None));
       (Sample.job "j3", JsObject.Match (Sample.result 40 None));
       (Sample.job "j4", JsObject.Match (Sample.result 95 None));
       (Sample.job "j5", JsObject.Match (Sample.result 72 None));
       (Sample.job "j6", JsObject.Match (Sample.result 40 None))].
Proof.
  pose proof (display_cap (platform := Scenarios.platform Sample.eight_jobs)
                (schemas := Sample.schemas) "r1" Dashboard.initialState [])
    as (Hr & _ & _ & _ & Hi & Ho & Hcards).
  cbv zeta in *.
  split; [rewrite Hr; vm_compute; reflexivity |].
  split; [apply (Hi 0%nat (Sample.job "j1")); [lia | vm_compute; reflexivity] |].
  split; [apply (Hi 5%nat (Sample.job "j6")); [lia | vm_compute; reflexivity] |].
  split; [vm_compute; discriminate |].
  split; [apply (Ho 6%nat); lia |].
  rewrite Hcards.
  - vm_compute. reflexivity.
  - exact (proj1 eight_ids_distinct_and_plain).
  - exact (proj2 eight_ids_distinct_and_plain).
Defined.

(** C8 as stated fails for what is displayed: in the scenario of the
    specification j1 and j2 are both kept and both requested, but only j1,
    whose analysis succeeded, gets a card. *)
Lemma kept_job_without_card :
  let run := loaded (platform := Sample.platform Sample.one_of_two_fails)
                    (schemas := Sample.schemas) "r1" Dashboard.initialState [] in
  let jobs := fetchedJobs (platform := Sample.platform Sample.one_of_two_fails)
                          (schemas := Sample.schemas) "r1" [] in
  jobs = [Sample.job "j1"; Sample.job "j2"] ∧
  Dashboard.recentJobs run.1 = [Sample.job "j1"; Sample.job "j2"] ∧
  length (drop 3 run.2) = 2%nat ∧
  DashboardView.matchesTab run.1
    = DashboardView.Grid [(Sample.job "j1", JsObject.Match (Sample.result 95 None))] ∧
  (Dashboard.matchCards run.1).*1 ≠ take (6 `min` length jobs) jobs.
Proof.
  cbv zeta. split; [vm_compute; reflexivity |].
  split; [vm_compute; reflexivity |].
  split; [vm_compute; reflexivity |].
  split; [vm_compute; reflexivity |].
  vm_compute. discriminate.
Qed.

(** * Further properties *)

(** ** Strings *)

Lemma length_append (a b : string) :
  String.length (a +:+ b) = (String.length a + String.length b)%nat.
Proof. induction a as [| c a IH]; simpl; [reflexivity | rewrite IH; reflexivity]. Qed.

Lemma length_slice_to (n : nat) (s : string) :
  String.length (slice_to n s) = (n `min` String.length s)%nat.
Proof.
  unfold slice_to. revert n. induction s as [| c s IH]; intros [| n]; simpl;
    try reflexivity.
  rewrite IH. reflexivity.
Qed.

Lemma slice_to_split (n : nat) (s : string) : ∃ rest, s = slice_to n s +:+ rest.
Proof.
  unfold slice_to. revert n. induction s as [| c s IH]; intros [| n]; simpl.
  - exists "". reflexivity.
  - exists "". reflexivity.
  - exists (String c s). reflexivity.
  - destruct (IH n) as [rest Hrest]. exists rest.
    change (String c s = String c (String.substring 0 n s +:+ rest)).
    f_equal. exact Hrest.
Qed.

Lemma nonempty_length (s : string) : nonempty s = true ↔ (1 ≤ String.length s)%nat.
Proof. destruct s; simpl; split; intros; try discriminate; try lia; reflexivity. Qed.

Lemma nonempty_false (s : string) : nonempty s = false ↔ s = "".
Proof. destruct s; simpl; split; intros; try discriminate; reflexivity. Qed.

Lemma truncated_length (t : string) :
  (String.length (ResumeAnalysisPanel.truncated t) = 100 `min` String.length t)%nat.
Proof.
  unfold ResumeAnalysisPanel.truncated.
  destruct (100 <? String.length t)%nat eqn:E.
  - apply Nat.ltb_lt in E. rewrite length_append, length_slice_to.
    change (String.length "...") with 3%nat. lia.
  - apply Nat.ltb_ge in E. lia.
Qed.

(** ** The text lines of the resume analysis *)

(** X1: a text of at most 100 code units is shown as it is; a longer one is cut
    to its first 97 code units followed by three dots, 100 in all. *)
Theorem truncated_spec (t : string) :
  (String.length (ResumeAnalysisPanel.truncated t) ≤ 100)%nat ∧
  ((String.length t ≤ 100)%nat → ResumeAnalysisPanel.truncated t = t) ∧
  ((100 < String.length t)%nat →
     String.length (ResumeAnalysisPanel.truncated t) = 100%nat ∧
     ∃ head rest, t = head +:+ rest ∧ String.length head = 97%nat
                  ∧ ResumeAnalysisPanel.truncated t = head +:+ "...").
Proof.
  split; [rewrite truncated_length; lia |]. split.
  - intros Hle. unfold ResumeAnalysisPanel.truncated.
    destruct (100 <? String.length t)%nat eqn:E; [| reflexivity].
    apply Nat.ltb_lt in E. lia.
  - intros Hlt. split; [rewrite truncated_length; lia |].
    destruct (slice_to_split 97 t) as [rest Hrest].
    exists (slice_to 97 t), rest. split; [exact Hrest |].
    split; [rewrite length_slice_to; lia |].
    unfold ResumeAnalysisPanel.truncated.
    apply Nat.ltb_lt in Hlt. rewrite Hlt. reflexivity.
Qed.

(** A short text is kept and a text of 104 code units is cut to 100. *)
Lemma truncated_spec_sample :
  ResumeAnalysisPanel.truncated "Strong backend profile" = "Strong backend profile" ∧
  String.length
    (ResumeAnalysisPanel.truncated
       ("0123456789012345678901234567890123456789012345678901234567890123456789"
        +:+ "0123456789012345678901234567890123")) = 100%nat.
Proof.
  split.
  - apply (proj1 (proj2 (truncated_spec "Strong backend profile"))). simpl. lia.
  - apply (proj2 (proj2 (truncated_spec
       ("0123456789012345678901234567890123456789012345678901234567890123456789"
        +:+ "0123456789012345678901234567890123")))). simpl. lia.
Defined.

Lemma js_or_string_default_nonempty (a : option string) (d : string) :
  nonempty d = true → nonempty (js_or_string_default a d) = true.
Proof.
  intros Hd. destruct a as [s |]; simpl; [| exact Hd].
  destruct (nonempty s) eqn:E; [exact E | exact Hd].
Qed.

Lemma js_or_string_default_empty (a : option string) :
  js_or_string_default a "" = "" ↔ (a = None ∨ a = Some "").
Proof.
  destruct a as [s |]; simpl.
  - destruct (nonempty s) eqn:E.
    + split; [intros -> | intros [? | [= ->]]]; discriminate.
    + apply nonempty_false in E as ->. split; [right |]; reflexivity.
  - split; [left |]; reflexivity.
Qed.

Lemma js_or_string_falsy (a b : option string) :
  (js_or_string a b = None ∨ js_or_string a b = Some "")
  ↔ (a = None ∨ a = Some "") ∧ (b = None ∨ b = Some "").
Proof.
  destruct a as [s |]; simpl.
  - destruct (nonempty s) eqn:E.
    + split.
      * intros [? | [= ->]]; discriminate.
      * intros [[? | [= ->]] _]; discriminate.
    + apply nonempty_false in E as ->. split; [intros ?; split; [right; reflexivity | assumption] | tauto].
  - split; [intros ?; split; [left; reflexivity | assumption] | tauto].
Qed.

Lemma truncated_nonempty (t : string) :
  nonempty (ResumeAnalysisPanel.truncated t) = nonempty t.
Proof.
  destruct (nonempty t) eqn:E.
  - apply nonempty_length. rewrite truncated_length.
    apply nonempty_length in E. lia.
  - apply nonempty_false in E as ->. reflexivity.
Qed.

Lemma nonempty_true (s : string) : s ≠ "" → nonempty s = true.
Proof. destruct s; [congruence | reflexivity]. Qed.

Lemma js_or_string_falsy_left (a b : option string) :
  a = None ∨ a = Some "" → js_or_string a b = b.
Proof. intros [-> | ->]; reflexivity. Qed.

(** X2: the details line is the joined strengths of the AI feedback when they
    have text, else the legacy details when they have text, else the
    placeholder "Analysis in progress...", cut to 100 code units; it is
    never empty.  The commentary paragraph likewise holds the joined
    critical issues, else the legacy commentary, cut to 100 code units, and
    is left out exactly when neither has text. *)
Theorem analysis_text_lines
    (aiFeedback : option ResumeAnalysisPanel.AIFeedback)
    (details commentary : option string) :
  let strengths := join " " <$> (aiFeedback ≫= ResumeAnalysisPanel.strengths) in
  let issues := join " " <$> (aiFeedback ≫= ResumeAnalysisPanel.critical_issues) in
  (∀ s, strengths = Some s → s ≠ "" →
     ResumeAnalysisPanel.truncatedDetails aiFeedback details
     = ResumeAnalysisPanel.truncated s) ∧
  (strengths = None ∨ strengths = Some "" →
   ∀ d, details = Some d → d ≠ "" →
     ResumeAnalysisPanel.truncatedDetails aiFeedback details
     = ResumeAnalysisPanel.truncated d) ∧
  (strengths = None ∨ strengths = Some "" →
   details = None ∨ details = Some "" →
     ResumeAnalysisPanel.truncatedDetails aiFeedback details = "Analysis in progress...") ∧
  (1 ≤ String.length (ResumeAnalysisPanel.truncatedDetails aiFeedback details) ≤ 100)%nat ∧
  (∀ s, issues = Some s → s ≠ "" →
     ResumeAnalysisPanel.commentaryParagraph aiFeedback commentary
     = Some (ResumeAnalysisPanel.truncated s)) ∧
  (issues = None ∨ issues = Some "" →
   ∀ c, commentary = Some c → c ≠ "" →
     ResumeAnalysisPanel.commentaryParagraph aiFeedback commentary
     = Some (ResumeAnalysisPanel.truncated c)) ∧
  (ResumeAnalysisPanel.commentaryParagraph aiFeedback commentary = None
   ↔ (issues = None ∨ issues = Some "") ∧ (commentary = None ∨ commentary = Some "")) ∧
  (∀ t, ResumeAnalysisPanel.commentaryParagraph aiFeedback commentary = Some t →
        (1 ≤ String.length t ≤ 100)%nat).
Proof.
  cbv zeta.
  split; [| split; [| split; [| split; [| split; [| split; [| split]]]]]].
  - intros s Hs Hne.
    unfold ResumeAnalysisPanel.truncatedDetails, ResumeAnalysisPanel.analysisDetails.
    rewrite Hs. simpl. rewrite (nonempty_true s Hne). simpl.
    rewrite (nonempty_true s Hne). reflexivity.
  - intros Hfalsy d -> Hne.
    unfold ResumeAnalysisPanel.truncatedDetails, ResumeAnalysisPanel.analysisDetails.
    rewrite (js_or_string_falsy_left _ _ Hfalsy). simpl.
    rewrite (nonempty_true d Hne). reflexivity.
  - intros Hfalsy Hd.
    unfold ResumeAnalysisPanel.truncatedDetails, ResumeAnalysisPanel.analysisDetails.
    rewrite (js_or_string_falsy_left _ _ Hfalsy).
    destruct Hd as [-> | ->]; reflexivity.
  - unfold ResumeAnalysisPanel.truncatedDetails. split.
    + apply nonempty_length. rewrite truncated_nonempty.
      apply js_or_string_default_nonempty. reflexivity.
    + rewrite truncated_length. lia.
  - intros s Hs Hne.
    unfold ResumeAnalysisPanel.commentaryParagraph,
      ResumeAnalysisPanel.truncatedCommentary, ResumeAnalysisPanel.analysisCommentary.
    cbv zeta. rewrite Hs. simpl. rewrite (nonempty_true s Hne). simpl.
    rewrite (nonempty_true s Hne), truncated_nonempty, (nonempty_true s Hne).
    reflexivity.
  - intros Hfalsy c -> Hne.
    unfold ResumeAnalysisPanel.commentaryParagraph,
      ResumeAnalysisPanel.truncatedCommentary, ResumeAnalysisPanel.analysisCommentary.
    cbv zeta. rewrite (js_or_string_falsy_left _ _ Hfalsy). simpl.
    rewrite (nonempty_true c Hne), truncated_nonempty, (nonempty_true c Hne).
    reflexivity.
  - unfold ResumeAnalysisPanel.commentaryParagraph,
      ResumeAnalysisPanel.truncatedCommentary. cbv zeta.
    rewrite truncated_nonempty. rewrite <- js_or_string_falsy.
    rewrite <- js_or_string_default_empty.
    fold (ResumeAnalysisPanel.analysisCommentary aiFeedback commentary).
    destruct (nonempty (ResumeAnalysisPanel.analysisCommentary aiFeedback commentary)) eqn:E.
    + split; [discriminate |]. intros Hempty. rewrite Hempty in E. discriminate.
    + split; [intros _; apply nonempty_false, E | reflexivity].
  - intros t. unfold ResumeAnalysisPanel.commentaryParagraph. cbv zeta.
    destruct (nonempty _) eqn:E; [| discriminate]. intros [= <-]. split.
    + apply nonempty_length, E.
    + unfold ResumeAnalysisPanel.truncatedCommentary. rewrite truncated_length. lia.
Qed.

(** With no feedback and no legacy texts the details line is the placeholder
    and there is no commentary; empty strengths give way to the legacy
    details; one critical issue is shown as commentary. *)
Lemma analysis_text_lines_sample :
  let feedback :=
    Some {| ResumeAnalysisPanel.strengths := Some [];
            ResumeAnalysisPanel.improvements := None;
            ResumeAnalysisPanel.critical_issues := Some ["Missing contact details"];
            ResumeAnalysisPanel.keyword_suggestions := None;
            ResumeAnalysisPanel.formatting_recommendations := None |} in
  ResumeAnalysisPanel.truncatedDetails None None = "Analysis in progress..." ∧
  ResumeAnalysisPanel.commentaryParagraph None None = None ∧
  ResumeAnalysisPanel.truncatedDetails feedback (Some "Clear structure")
    = "Clear structure" ∧
  ResumeAnalysisPanel.commentaryParagraph feedback None
    = Some "Missing contact details".
Proof.
  intros feedback.
  destruct (analysis_text_lines None None None)
    as (_ & _ & Hplaceholder & _ & _ & _ & Hnone & _).
  destruct (analysis_text_lines feedback (Some "Clear structure") None)
    as (_ & Hlegacy & _ & _ & Hissues & _).
  split; [apply Hplaceholder; left; reflexivity |].
  split; [apply Hnone; split; left; reflexivity |].
  split.
  - apply (Hlegacy (or_intror eq_refl) "Clear structure" eq_refl). discriminate.
  - apply (Hissues "Missing contact details" eq_refl). discriminate.
Defined.

(** ** The suggestions of the resume analysis *)

(** X3: when the AI feedback carries an improvements list, even an empty one,
    the suggestions are exactly its texts in order, each with impact 70, and
    the legacy improvements play no part; only when it carries none are the
    legacy suggestions used, in order, each with impact 60. *)
Theorem enhancedSuggestions_source
    (aiFeedback : option ResumeAnalysisPanel.AIFeedback)
    (legacy : option (list ResumeAnalysisPanel.LegacyImprovementSuggestion)) :
  let shown := ResumeAnalysisPanel.enhancedSuggestions aiFeedback legacy in
  (∀ items, aiFeedback ≫= ResumeAnalysisPanel.improvements = Some items →
     shown = ResumeAnalysisPanel.enhancedSuggestions aiFeedback None ∧
     suggestion <$> shown = items ∧
     Forall (λ s, impact_score s = Finite 70) shown) ∧
  (aiFeedback ≫= ResumeAnalysisPanel.improvements = None →
     suggestion <$> shown = ResumeAnalysisPanel.suggestion <$> default [] legacy ∧
     Forall (λ s, impact_score s = Finite 60) shown).
Proof.
  cbv zeta. unfold ResumeAnalysisPanel.enhancedSuggestions. split.
  - intros items ->. split; [reflexivity |]. split.
    + rewrite <- list_fmap_compose. apply list_fmap_id.
    + apply Forall_fmap, Forall_true. reflexivity.
  - intros ->. destruct legacy as [items |]; simpl.
    + split; [rewrite <- list_fmap_compose; reflexivity |].
      apply Forall_fmap, Forall_true. reflexivity.
    + split; constructor.
Qed.

(** An empty AI improvements list hides two legacy improvements. *)
Lemma enhancedSuggestions_source_empty_ai_list :
  ResumeAnalysisPanel.enhancedSuggestions
    (Some {| ResumeAnalysisPanel.strengths := None;
             ResumeAnalysisPanel.improvements := Some [];
             ResumeAnalysisPanel.critical_issues := None;
             ResumeAnalysisPanel.keyword_suggestions := None;
             ResumeAnalysisPanel.formatting_recommendations := None |})
    (Some [ {| ResumeAnalysisPanel.suggestion := "Add metrics";
               ResumeAnalysisPanel.lineNumber := None |};
            {| ResumeAnalysisPanel.suggestion := "Shorten summary";
               ResumeAnalysisPanel.lineNumber := Some "12" |} ])
  = [] ∧
  suggestion <$> ResumeAnalysisPanel.enhancedSuggestions None
    (Some [ {| ResumeAnalysisPanel.suggestion := "Add metrics";
               ResumeAnalysisPanel.lineNumber := None |} ])
  = ["Add metrics"].
Proof.
  split.
  - destruct (enhancedSuggestions_source
      (Some {| ResumeAnalysisPanel.strengths := None;
               ResumeAnalysisPanel.improvements := Some [];
               ResumeAnalysisPanel.critical_issues := None;
               ResumeAnalysisPanel.keyword_suggestions := None;
               ResumeAnalysisPanel.formatting_recommendations := None |})
      (Some [ {| ResumeAnalysisPanel.suggestion := "Add metrics";
                 ResumeAnalysisPanel.lineNumber := None |};
              {| ResumeAnalysisPanel.suggestion := "Shorten summary";
                 ResumeAnalysisPanel.lineNumber := Some "12" |} ])) as [A _].
    destruct (A [] eq_refl) as (-> & _). reflexivity.
  - destruct (enhancedSuggestions_source None
      (Some [ {| ResumeAnalysisPanel.suggestion := "Add metrics";
                 ResumeAnalysisPanel.lineNumber := None |} ])) as [_ L].
    exact (proj1 (L eq_refl)).
Defined.

(** X4: every suggestion row of the resume analysis carries the medium badge,
    the priority text MEDIUM and the category Content, whatever the feedback
    and the legacy improvements are; none of the suggestions is a priority
    issue in the sense of the job match card. *)
Theorem suggestionRows_always_medium
    (aiFeedback : option ResumeAnalysisPanel.AIFeedback)
    (legacy : option (list ResumeAnalysisPanel.LegacyImprovementSuggestion)) :
  Forall (λ r, ResumeAnalysisPanel.rowBadge r = "bg-yellow-500 text-black" ∧
               ResumeAnalysisPanel.rowPriority r = "MEDIUM" ∧
               ResumeAnalysisPanel.rowCategory r = "Content")
         (ResumeAnalysisPanel.suggestionRows aiFeedback legacy) ∧
  List.filter JobMatchCard.isPriority
    (ResumeAnalysisPanel.enhancedSuggestions aiFeedback legacy) = [] ∧
  length (ResumeAnalysisPanel.suggestionRows aiFeedback legacy)
    = match aiFeedback ≫= ResumeAnalysisPanel.improvements with
      | Some items => length items
      | None => length (default [] legacy)
      end.
Proof.
  unfold ResumeAnalysisPanel.suggestionRows, ResumeAnalysisPanel.enhancedSuggestions.
  destruct (aiFeedback ≫= ResumeAnalysisPanel.improvements) as [items |];
    [| destruct legacy as [items |]]; simpl.
  - split; [| split].
    + apply Forall_fmap, Forall_fmap, Forall_true. intros ?. repeat split.
    + induction items; [reflexivity | assumption].
    + rewrite !length_fmap. reflexivity.
  - split; [| split].
    + apply Forall_fmap, Forall_fmap, Forall_true. intros ?. repeat split.
    + induction items; [reflexivity | assumption].
    + rewrite !length_fmap. reflexivity.
  - repeat split. constructor.
Qed.

(** ** Colours and labels agree *)

(** X5: in both components the colour and the label of a score belong to the
    same band: green goes with Excellent and Very Good, yellow with Good and
    Fair, red with Needs Improvement; the bar and the badge carry the band of
    the text colour. *)
Theorem colour_and_label_agree (s : number) :
  is_Some (band (ResumeAnalysis.getScoreColor s)) ∧
  band (ResumeAnalysis.getScoreColor s) = labelBand (ResumeAnalysis.getScoreText s) ∧
  band (ResumeAnalysis.barColor s) = band (ResumeAnalysis.getScoreColor s) ∧
  band (JobMatchCard.getMatchColor s) = labelBand (JobMatchCard.getMatchText s) ∧
  band (JobMatchCard.getMatchBadgeColor s) = band (JobMatchCard.getMatchColor s) ∧
  band (JobMatchCard.getMatchColor s) = band (ResumeAnalysis.getScoreColor s).
Proof.
  unfold ResumeAnalysis.getScoreColor, ResumeAnalysis.barColor,
    ResumeAnalysis.getScoreText, JobMatchCard.getMatchColor,
    JobMatchCard.getMatchBadgeColor, JobMatchCard.getMatchText.
  thresholds; try (repeat split; solve [reflexivity | eexists; reflexivity]);
    order.
Qed.

(** ** The loading effect of the resume analysis *)

Lemma lift_run {platform : Platform} {S A} (p : Net A) (st : S) (log : list Request) :
  lift p (st, log) = (outcome p log, (st, (p log).2)).
Proof. unfold lift, outcome. destruct (p log). reflexivity. Qed.

(** X6: the effect fetches nothing when resume data is passed in or the resume
    identifier is absent or empty, and leaves the state alone.  Otherwise it
    issues exactly one request, for that resume; on success the fetched
    resume is stored and the error is left as it was, on failure the error
    becomes Failed to load resume analysis and the stored resume is left as
    it was; either way loading ends false and the effect does not throw. *)
Theorem loadResume_spec {platform : Platform} {schemas : Schemas}
    (props : ResumeAnalysisPanel.Props) (st : ResumeAnalysisPanel.State)
    (log : list Request) :
  ((ResumeAnalysisPanel.resumeData props ≠ None
    ∨ ResumeAnalysisPanel.resume_id props = None
    ∨ ResumeAnalysisPanel.resume_id props = Some "") →
     ResumeAnalysisPanel.loadResume props (st, log) = (inr (), (st, log))) ∧
  (∀ id, ResumeAnalysisPanel.resume_id props = Some id → id ≠ "" →
     ResumeAnalysisPanel.resumeData props = None →
     let fetched := outcome (Api.getProcessedResume id) log in
     ResumeAnalysisPanel.loadResume props (st, log)
     = (inr (),
        ({| ResumeAnalysisPanel.isModalOpen := ResumeAnalysisPanel.isModalOpen st;
            ResumeAnalysisPanel.resumeAnalysis :=
              match fetched with
              | inr resume => Some resume
              | inl _ => ResumeAnalysisPanel.resumeAnalysis st
              end;
            ResumeAnalysisPanel.loading := false;
            ResumeAnalysisPanel.error :=
              match fetched with
              | inr _ => ResumeAnalysisPanel.error st
              | inl _ => Some "Failed to load resume analysis"
              end |},
         log ++ [Api.getProcessedResume_request id]))).
Proof.
  unfold ResumeAnalysisPanel.loadResume. split.
  - intros [Hdata | [-> | ->]].
    + destruct (ResumeAnalysisPanel.resume_id props);
        destruct (ResumeAnalysisPanel.resumeData props); try reflexivity.
      congruence.
    + reflexivity.
    + destruct (ResumeAnalysisPanel.resumeData props); reflexivity.
  - intros id -> Hid ->. cbv zeta.
    assert (nonempty id = true) as ->.
    { destruct (nonempty id) eqn:E; [reflexivity |].
      apply nonempty_false in E. congruence. }
    unfold try_catch_finally, catch, ResumeAnalysisPanel.update, mbind, ST_bind.
    rewrite lift_run. unfold outcome.
    rewrite (getProcessedResume_one_call id log). cbn [fst snd].
    destruct (one_call_outcome _ _ _ _); reflexivity.
Qed.

(** Mounted with an identifier and no data, the component fetches once: a
    404 ends in the error panel, and passing data in fetches nothing. *)
Lemma loadResume_spec_sample :
  let props := {| ResumeAnalysisPanel.resume_id := Some "r1";
                  ResumeAnalysisPanel.resumeData := None |} in
  let given := {| ResumeAnalysisPanel.resume_id := Some "r1";
                  ResumeAnalysisPanel.resumeData := Some (Sample.resume None) |} in
  ResumeAnalysisPanel.view
    (ResumeAnalysisPanel.loadResume
       (platform := Sample.platform [Sample.reply 404 "Not Found"])
       (schemas := Sample.schemas) props (ResumeAnalysisPanel.mount props, [])).2.1
    = ResumeAnalysisPanel.ErrorPanel "Failed to load resume analysis" ∧
  ResumeAnalysisPanel.loadResume
    (platform := Sample.platform [Sample.reply 404 "Not Found"])
    (schemas := Sample.schemas) given (ResumeAnalysisPanel.mount given, [])
    = (inr (), (ResumeAnalysisPanel.mount given, [])).
Proof.
  intros props given. split.
  - destruct (loadResume_spec
                (platform := Sample.platform [Sample.reply 404 "Not Found"])
                (schemas := Sample.schemas) props (ResumeAnalysisPanel.mount props) [])
      as [_ F].
    rewrite (F "r1" eq_refl ltac:(discriminate) eq_refl). reflexivity.
  - apply (proj1 (loadResume_spec
                (platform := Sample.platform [Sample.reply 404 "Not Found"])
                (schemas := Sample.schemas) given (ResumeAnalysisPanel.mount given) [])).
    left. discriminate.
Defined.

(** ** The keyed fold on arbitrary lists *)

Lemma matchMap_fold_elem (l : list (option Dashboard.Settled)) :
  ∀ (acc : gmap string ResumeJobMatchResult) id m,
    (foldl (λ matchMap result,
              match result with
              | Some result => <[Dashboard.jobId result := Dashboard.match_ result]> matchMap
              | None => matchMap
              end) acc l) !! id = Some m →
    Some {| Dashboard.jobId := id; Dashboard.match_ := m |} ∈ l ∨ acc !! id = Some m.
Proof.
  induction l as [| [e |] l IH]; intros acc id m Hm; simpl in Hm.
  - right. exact Hm.
  - destruct (IH _ _ _ Hm) as [Hin | Hacc]; [left; right; exact Hin |].
    destruct (decide (Dashboard.jobId e = id)) as [<- | Hne].
    + rewrite lookup_insert_eq in Hacc. injection Hacc as <-.
      left. apply elem_of_cons. left. destruct e. reflexivity.
    + rewrite lookup_insert_ne in Hacc by exact Hne. right. exact Hacc.
  - destruct (IH _ _ _ Hm) as [Hin | Hacc]; [left; right; exact Hin | right; exact Hacc].
Qed.

Lemma matchMap_fold_fresh (l : list (option Dashboard.Settled)) :
  ∀ (acc : gmap string ResumeJobMatchResult) id,
    id ∉ settled_ids l →
    (foldl (λ matchMap result,
              match result with
              | Some result => <[Dashboard.jobId result := Dashboard.match_ result]> matchMap
              | None => matchMap
              end) acc l) !! id = acc !! id.
Proof.
  unfold settled_ids.
  induction l as [| [e |] l IH]; intros acc id Hid; simpl in *.
  - reflexivity.
  - apply not_elem_of_cons in Hid as [Hne Hid].
    rewrite IH by exact Hid. apply lookup_insert_ne. congruence.
  - apply IH, Hid.
Qed.

Lemma matchMap_fold_dom (l : list (option Dashboard.Settled)) :
  ∀ acc : gmap string ResumeJobMatchResult,
    dom (foldl (λ matchMap result,
                  match result with
                  | Some result => <[Dashboard.jobId result := Dashboard.match_ result]> matchMap
                  | None => matchMap
                  end) acc l)
    = dom acc ∪ list_to_set (settled_ids l).
Proof.
  unfold settled_ids.
  induction l as [| [e |] l IH]; intros acc; simpl.
  - rewrite (right_id_L ∅ (∪)). reflexivity.
  - rewrite IH, dom_insert_L.
    rewrite (comm_L (∪) {[Dashboard.jobId e]} (dom acc)), <- (assoc_L (∪)).
    reflexivity.
  - apply IH.
Qed.

Lemma read_assigned (object : gmap string ResumeJobMatchResult) key m :
  object !! key = Some m → JsObject.read object key = JsObject.Match m.
Proof.
  intros Hm. unfold JsObject.read.
  destruct (decide (key = "__proto__")) as [-> | _]; rewrite Hm; reflexivity.
Qed.

Lemma read_Match (object : gmap string ResumeJobMatchResult) key m :
  JsObject.read object key = JsObject.Match m → object !! key = Some m.
Proof.
  unfold JsObject.read, JsObject.inherited.
  destruct (decide (key = "__proto__")) as [-> | _].
  - destruct (object !! "__proto__"); [| discriminate]. intros [= ->]. reflexivity.
  - destruct (object !! key); [intros [= ->]; reflexivity |].
    destruct (object !! "__proto__") as [prototype |].
    + destruct (JsObject.field prototype key); [discriminate |].
      destruct (decide (key ∈ JsObject.Object_prototype)); discriminate.
    + destruct (decide (key ∈ JsObject.Object_prototype)); discriminate.
Qed.

(** X7: for any list of settled results, with or without repeated identifiers:
    the own properties of the map are the identifiers of the results that
    did not fail, apart from "__proto__", which names no own property (a
    read of it returns [Object.prototype] until a result settles under that
    name); when an identifier settles several times the last success in
    array order is the one kept, and the one a read at the identifier
    returns; and a failed result changes nothing. *)
Theorem matchMap_last_success_wins :
  (∀ l, JsObject.keys (Dashboard.matchMap l)
        = list_to_set (settled_ids l) ∖ {["__proto__"]}) ∧
  (∀ l, "__proto__" ∉ settled_ids l →
        JsObject.read (Dashboard.matchMap l) "__proto__" = JsObject.ObjectPrototype) ∧
  (∀ l1 e l2, Dashboard.jobId e ∉ settled_ids l2 →
     Dashboard.matchMap (l1 ++ Some e :: l2) !! Dashboard.jobId e
     = Some (Dashboard.match_ e) ∧
     JsObject.read (Dashboard.matchMap (l1 ++ Some e :: l2)) (Dashboard.jobId e)
     = JsObject.Match (Dashboard.match_ e)) ∧
  (∀ l1 l2, Dashboard.matchMap (l1 ++ None :: l2) = Dashboard.matchMap (l1 ++ l2)).
Proof.
  split; [| split; [| split]].
  - intros l. unfold JsObject.keys, Dashboard.matchMap.
    rewrite matchMap_fold_dom, dom_empty_L, (left_id_L ∅ (∪)). reflexivity.
  - intros l Hfresh. unfold JsObject.read, Dashboard.matchMap.
    rewrite decide_True by reflexivity.
    rewrite matchMap_fold_fresh by exact Hfresh. rewrite lookup_empty. reflexivity.
  - intros l1 e l2 Hfresh.
    assert (Dashboard.matchMap (l1 ++ Some e :: l2) !! Dashboard.jobId e
            = Some (Dashboard.match_ e)) as Hm.
    { unfold Dashboard.matchMap. rewrite foldl_app. simpl.
      rewrite matchMap_fold_fresh by exact Hfresh. apply lookup_insert_eq. }
    split; [exact Hm | apply read_assigned, Hm].
  - intros l1 l2. unfold Dashboard.matchMap. rewrite !foldl_app. reflexivity.
Qed.

(** j1 settles twice with different results: the later one is kept and
    read. *)
Lemma matchMap_last_success_wins_sample :
  let settled :=
    [Some {| Dashboard.jobId := "j1"; Dashboard.match_ := Sample.result 95 None |};
     Some {| Dashboard.jobId := "j1"; Dashboard.match_ := Sample.result 40 None |};
     None] in
  Dashboard.matchMap settled !! "j1" = Some (Sample.result 40 None) ∧
  JsObject.read (Dashboard.matchMap settled) "j1" = JsObject.Match (Sample.result 40 None) ∧
  JsObject.read (Dashboard.matchMap settled) "__proto__" = JsObject.ObjectPrototype.
Proof.
  intros settled.
  destruct matchMap_last_success_wins as (_ & Hproto & Hlast & _).
  destruct (Hlast
              [Some {| Dashboard.jobId := "j1"; Dashboard.match_ := Sample.result 95 None |}]
              {| Dashboard.jobId := "j1"; Dashboard.match_ := Sample.result 40 None |}
              [None]) as [Hown Hread].
  { unfold settled_ids. simpl. apply not_elem_of_nil. }
  split; [exact Hown |]. split; [exact Hread |].
  apply Hproto. unfold settled, settled_ids. simpl.
  intros Hin. apply elem_of_cons in Hin as [Hin | Hin]; [discriminate |].
  apply list_elem_of_singleton in Hin. discriminate.
Defined.

(** ** What a page load costs and shows *)

Lemma matchMap_lookup_elem (l : list (option Dashboard.Settled)) id m :
  Dashboard.matchMap l !! id = Some m →
  Some {| Dashboard.jobId := id; Dashboard.match_ := m |} ∈ l.
Proof.
  intros Hm. destruct (matchMap_fold_elem l ∅ id m Hm) as [Hin | Hempty];
    [exact Hin |].
  rewrite lookup_empty in Hempty. discriminate.
Qed.

Lemma keptJobs_length {platform : Platform} {schemas : Schemas} resumeId log :
  length (keptJobs resumeId log) = (6 `min` length (fetchedJobs resumeId log))%nat.
Proof. apply length_take. Qed.

(** X8: a page load issues the three initial requests and one analysis request
    per kept job, after the requests already issued: between three and nine
    requests, whatever the replies are. *)
Theorem load_request_budget {platform : Platform} {schemas : Schemas}
    (resumeId : string) (st : Dashboard.State) (log : list Request) :
  let log' := (loaded resumeId st log).2 in
  take (length log) log' = log ∧
  length log' = (length log + 3 + 6 `min` length (fetchedJobs resumeId log))%nat ∧
  (length log + 3 ≤ length log' ≤ length log + 9)%nat.
Proof.
  cbv zeta. unfold loaded. rewrite loadDashboardData_run. cbn [snd].
  split; [apply take_app_length |].
  assert (length (log ++ initialRequests resumeId
                      ++ matchRequests resumeId (keptJobs resumeId log))
          = (length log + 3 + 6 `min` length (fetchedJobs resumeId log))%nat) as E.
  { rewrite !length_app. unfold matchRequests.
    rewrite length_fmap, keptJobs_length. simpl. lia. }
  split; [exact E | lia].
Qed.

(** X9: when the job list is empty (the fetch failed, or the body has no jobs
    property or an empty one) the load issues the three initial requests
    only, records no recent job, leaves the map of matches as it was, and
    the matches tab shows the empty state. *)
Theorem load_without_jobs {platform : Platform} {schemas : Schemas}
    (resumeId : string) (st : Dashboard.State) (log : list Request) :
  (∀ e, jobsOutcome resumeId log = inl e → fetchedJobs resumeId log = []) ∧
  (∀ response,
     network (length log + 1) (Api.getResumeJobs_request resumeId) = inr response →
     ok response = true →
     json_parse (T := option (list ProcessedJob)) (text response) = Some None →
     fetchedJobs resumeId log = []) ∧
  (fetchedJobs resumeId log = [] →
     let st' := (loaded resumeId st log).1 in
     (loaded resumeId st log).2 = log ++ initialRequests resumeId ∧
     Dashboard.recentJobs st' = [] ∧
     Dashboard.jobMatches st' = Dashboard.jobMatches st ∧
     DashboardView.matchesTab st' = DashboardView.NoJobMatchesYet).
Proof.
  split; [| split].
  - intros e He. unfold fetchedJobs. rewrite He. reflexivity.
  - intros response Hreply Hok Hparse. unfold fetchedJobs, jobsOutcome, outcome.
    rewrite (getResumeJobs_one_call resumeId). cbn [fst].
    rewrite length_app. cbn [length take initialRequests].
    rewrite Hreply. unfold one_call_outcome. rewrite Hok, Hparse. reflexivity.
  - intros Hnone. cbv zeta. unfold loaded, DashboardView.matchesTab.
    rewrite loadDashboardData_run.
    cbn [fst snd Dashboard.recentJobs Dashboard.jobMatches].
    unfold keptJobs, matchRequests. rewrite Hnone.
    rewrite take_nil, fmap_nil, app_nil_r. repeat split.
Qed.

(** A 200 whose body has no jobs property: three requests, empty state. *)
Lemma load_without_jobs_sample :
  let run := loaded (platform := Sample.platform Scenarios.no_jobs_key)
                    (schemas := Sample.schemas) "r1" Dashboard.initialState [] in
  length run.2 = 3%nat ∧
  DashboardView.matchesTab run.1 = DashboardView.NoJobMatchesYet.
Proof.
  destruct (load_without_jobs (platform := Sample.platform Scenarios.no_jobs_key)
              (schemas := Sample.schemas) "r1" Dashboard.initialState [])
    as (_ & Hkey & Hload).
  assert (fetchedJobs (platform := Sample.platform Scenarios.no_jobs_key)
            (schemas := Sample.schemas) "r1" [] = []) as Hnone.
  { apply (Hkey {| status := 200; text := "{}" |}); reflexivity. }
  destruct (Hload Hnone) as (Hlog & _ & _ & Htab).
  cbv zeta. rewrite Hlog, Htab. split; reflexivity.
Defined.

Lemma loaded_prototype_untouched {platform : Platform} {schemas : Schemas}
    resumeId (st : Dashboard.State) log :
  keptJobs resumeId log ≠ [] →
  Forall (λ job, plain_id (job_id job)) (keptJobs resumeId log) →
  Dashboard.jobMatches (loaded resumeId st log).1 !! "__proto__" = None.
Proof.
  intros Hne Hplain. rewrite loaded_jobMatches by exact Hne.
  apply eq_None_not_Some. intros [m Hm].
  apply matchMap_lookup_elem, settled_from_kept in Hm as (i & job & Hi & Hid & _).
  rewrite Forall_forall in Hplain. apply (Hplain job).
  - apply list_elem_of_lookup. exists i. exact Hi.
  - rewrite Hid. apply proto_in_Object_prototype.
Qed.

(** X10: every card of the matches tab belongs to a kept job; a card that shows
    a match object shows one that a request of this load returned for that
    job identifier, never an entry left over from an earlier load; and when
    no kept identifier names a property of [Object.prototype], every card
    shows a match object.  The cards follow the order of the kept jobs and
    there are at most six. *)
Theorem cards_come_from_this_load {platform : Platform} {schemas : Schemas}
    (resumeId : string) (st : Dashboard.State) (log : list Request) :
  let kept := keptJobs resumeId log in
  let cards := Dashboard.matchCards (loaded resumeId st log).1 in
  Forall (λ card,
            card.1 ∈ kept ∧
            ∀ m, card.2 = JsObject.Match m →
              ∃ i job, kept !! i = Some job ∧ job_id job = job_id card.1
                       ∧ matchOutcome resumeId log i job = inr m) cards ∧
  (Forall (λ job, plain_id (job_id job)) kept →
   Forall (λ card, ∃ m, card.2 = JsObject.Match m) cards) ∧
  cards.*1 `sublist_of` kept ∧
  (length cards ≤ 6)%nat.
Proof.
  cbv zeta.
  assert (Dashboard.recentJobs (loaded resumeId st log).1 = keptJobs resumeId log) as Hrecent.
  { unfold loaded. rewrite loadDashboardData_run. reflexivity. }
  assert ((Dashboard.matchCards (loaded resumeId st log).1).*1
            `sublist_of` keptJobs resumeId log) as Hsub.
  { rewrite <- Hrecent. apply matchCards_sublist. }
  assert (∀ job v, (job, v) ∈ Dashboard.matchCards (loaded resumeId st log).1 →
            job ∈ keptJobs resumeId log
            ∧ v = JsObject.read (Dashboard.jobMatches (loaded resumeId st log).1) (job_id job)
            ∧ JsObject.truthyValue v = true) as Hcards.
  { intros job v Hcard. unfold Dashboard.matchCards in Hcard. rewrite Hrecent in Hcard.
    apply list_elem_of_omap in Hcard as (job' & Hjob' & Hread). cbv zeta in Hread.
    destruct (JsObject.truthyValue _) eqn:Htruthy; [| discriminate].
    injection Hread as <- <-. repeat split; [exact Hjob' | exact Htruthy]. }
  assert (∀ job, job ∈ keptJobs resumeId log → keptJobs resumeId log ≠ []) as Hne.
  { intros job Hjob E. rewrite E in Hjob. apply elem_of_nil in Hjob. exact Hjob. }
  split; [| split; [| split; [exact Hsub |]]].
  - apply Forall_forall. intros [job v] Hcard.
    destruct (Hcards job v Hcard) as (Hjob & Hv & _).
    split; [exact Hjob |]. cbn [fst snd]. intros m ->.
    symmetry in Hv. apply read_Match in Hv.
    rewrite loaded_jobMatches in Hv by exact (Hne job Hjob).
    apply matchMap_lookup_elem, settled_from_kept in Hv. exact Hv.
  - intros Hplain. apply Forall_forall. intros [job v] Hcard.
    destruct (Hcards job v Hcard) as (Hjob & Hv & Htruthy). cbn [snd].
    rewrite read_own_property in Hv.
    + destruct (Dashboard.jobMatches (loaded resumeId st log).1 !! job_id job) as [m |].
      * exists m. exact Hv.
      * rewrite Hv in Htruthy. discriminate.
    + rewrite Forall_forall in Hplain. apply Hplain, Hjob.
    + apply loaded_prototype_untouched; [exact (Hne job Hjob) | exact Hplain].
  - apply sublist_length in Hsub. rewrite length_fmap in Hsub.
    rewrite keptJobs_length in Hsub. lia.
Qed.

(** In the scenario of the specification the one card is that of j1 and
    shows the result its request returned. *)
Lemma cards_come_from_this_load_sample :
  let cards := Dashboard.matchCards
                 (loaded (platform := Sample.platform Sample.one_of_two_fails)
                         (schemas := Sample.schemas) "r1" Dashboard.initialState []).1 in
  cards = [(Sample.job "j1", JsObject.Match (Sample.result 95 None))] ∧
  Forall (λ card, ∃ m, card.2 = JsObject.Match m) cards.
Proof.
  split; [vm_compute; reflexivity |].
  apply (cards_come_from_this_load
           (platform := Sample.platform Sample.one_of_two_fails)
           (schemas := Sample.schemas) "r1" Dashboard.initialState []).
  apply (bool_decide_unpack _). vm_compute. exact I.
Defined.










(** X12: for replies whose success bodies have the declared shapes (the job
    list's [jobs] property an array or absent), no failing call of a load,
    be it a rejected fetch, a non-success status or a body that is not
    JSON, brings up the error panel: once the load has run the page is past
    the skeleton and shows the error panel only if an error was already set
    before the load, so a load from the initial state ends on the tabs. *)
Theorem view_after_load {platform : Platform} {schemas : Schemas}
    (resumeId : string) (st : Dashboard.State) (log : list Request) :
  let st' := (loaded resumeId st log).1 in
  DashboardView.view st'
    = match Dashboard.error st with
      | Some message =>
          if nonempty message then DashboardView.DashboardError message
          else DashboardView.Tabs (Dashboard.activeTab st)
      | None => DashboardView.Tabs (Dashboard.activeTab st)
      end ∧
  DashboardView.view (loaded resumeId Dashboard.initialState log).1
    = DashboardView.Tabs Dashboard.overview.
Proof.
  cbv zeta. unfold loaded. rewrite !loadDashboardData_run. split; reflexivity.
Qed.

(** ** uploadJobs and its siblings *)

Lemma first_rejection_None {platform : Platform} {A} (rs : list (exn + A)) :
  ∀ i, first_rejection i rs = None → rs = inr <$> values rs.
Proof.
  unfold values.
  induction rs as [| [e | a] rs IH]; intros i Hnone; simpl in *.
  - reflexivity.
  - destruct (first_rejection (S i) rs); discriminate.
  - f_equal. apply (IH (S i)), Hnone.
Qed.

Lemma first_rejection_Some {platform : Platform} {A} (rs : list (exn + A)) :
  ∀ i k e, first_rejection i rs = Some (k, e) → inl e ∈ rs.
Proof.
  induction rs as [| [e' | a] rs IH]; intros i k e Hsome; simpl in Hsome.
  - discriminate.
  - destruct (first_rejection (S i) rs) as [[k' e''] |] eqn:Hrest.
    + unfold earlier in Hsome. simpl in Hsome.
      destruct (k' <? settle_rank i)%nat; injection Hsome as <- <-.
      * apply elem_of_cons. right. apply (IH _ _ _ Hrest).
      * apply elem_of_cons. left. reflexivity.
    + injection Hsome as <- <-. apply elem_of_cons. left. reflexivity.
  - apply elem_of_cons. right. apply (IH _ _ _ Hsome).
Qed.

Lemma uploadOutcomes_lookup {platform : Platform} {schemas : Schemas}
    resumeId (jobDescriptions : list string) :
  ∀ log i,
    uploadOutcomes resumeId log jobDescriptions !! i
    = (λ description,
         one_call_outcome "Job upload failed: " " - " id
           (network (length log + i) (Api.uploadJobs_request resumeId description)))
      <$> jobDescriptions !! i.
Proof.
  induction jobDescriptions as [| d ds IH]; intros log [| i]; simpl; try reflexivity.
  - rewrite Nat.add_0_r. reflexivity.
  - rewrite IH, length_app. simpl.
    replace (length log + 1 + i)%nat with (length log + S i)%nat by lia.
    reflexivity.
Qed.

Lemma uploadOutcomes_length {platform : Platform} {schemas : Schemas}
    resumeId (jobDescriptions : list string) :
  ∀ log, length (uploadOutcomes resumeId log jobDescriptions) = length jobDescriptions.
Proof.
  induction jobDescriptions as [| d ds IH]; intros log; simpl;
    [reflexivity | rewrite IH; reflexivity].
Qed.

(** X13: [uploadJobs] is all or nothing.  The promise of the i-th description
    settles from the reply to the i-th request alone; the call fulfils
    exactly when every one of them fulfilled, with their values in the order
    of the descriptions, and otherwise rejects with the reason of one of the
    rejected promises, so that no partial result is ever returned. *)
Theorem uploadJobs_all_or_nothing {platform : Platform} {schemas : Schemas}
    (jobDescriptions : list string) (resumeId : option string) (log : list Request) :
  let settled := uploadOutcomes resumeId log jobDescriptions in
  let result := outcome (Api.uploadJobs jobDescriptions resumeId) log in
  (∀ i, settled !! i
        = (λ description,
             one_call_outcome "Job upload failed: " " - " id
               (network (length log + i) (Api.uploadJobs_request resumeId description)))
          <$> jobDescriptions !! i) ∧
  (∀ results, result = inr results ↔ settled = inr <$> results) ∧
  (∀ results, result = inr results → length results = length jobDescriptions) ∧
  (∀ e, result = inl e → inl e ∈ settled).
Proof.
  cbv zeta. unfold outcome. rewrite uploadJobs_run. cbn [fst].
  split; [intros i; apply uploadOutcomes_lookup |].
  destruct (first_rejection 0 (uploadOutcomes resumeId log jobDescriptions))
    as [[k e] |] eqn:Hfirst.
  - split; [| split].
    + intros results. split; [discriminate |]. intros Hall.
      rewrite Hall, first_rejection_fulfilled in Hfirst. discriminate.
    + discriminate.
    + intros e' [= <-]. apply (first_rejection_Some _ _ _ _ Hfirst).
  - pose proof (first_rejection_None _ _ Hfirst) as Hall.
    split; [| split].
    + intros results. split.
      * intros [= <-]. exact Hall.
      * intros Hres. rewrite Hres, values_fulfilled. reflexivity.
    + intros results [= <-].
      rewrite <- (uploadOutcomes_length resumeId jobDescriptions log).
      rewrite Hall at 2. rewrite length_fmap. reflexivity.
    + discriminate.
Qed.

(** Three uploads whose second answers 422: the call rejects with that
    error although the first and third succeeded. *)
Lemma uploadJobs_all_or_nothing_sample :
  outcome (Api.uploadJobs (platform := Sample.platform Scenarios.second_upload_fails)
             (schemas := Sample.schemas)
             ["Backend engineer"; "Data analyst"; "Designer"] None) []
    = inl (Error "Job upload failed: 422 - Unprocessable") ∧
  inl (Error "Job upload failed: 422 - Unprocessable")
    ∈ uploadOutcomes (platform := Sample.platform Scenarios.second_upload_fails)
        (schemas := Sample.schemas) None []
        ["Backend engineer"; "Data analyst"; "Designer"].
Proof.
  assert (outcome (Api.uploadJobs (platform := Sample.platform Scenarios.second_upload_fails)
             (schemas := Sample.schemas)
             ["Backend engineer"; "Data analyst"; "Designer"] None) []
          = inl (Error "Job upload failed: 422 - Unprocessable")) as E
    by (vm_compute; reflexivity).
  split; [exact E |].
  apply (proj2 (proj2 (proj2 (uploadJobs_all_or_nothing
           (platform := Sample.platform Scenarios.second_upload_fails)
           (schemas := Sample.schemas)
           ["Backend engineer"; "Data analyst"; "Designer"] None [])))).
  exact E.
Defined.

(** X14: [uploadJobs] issues, in order, the very requests that
    [processJobEnhanced] issues for each description; on no description it
    issues nothing and fulfils with the empty list; and on one description
    it fulfils exactly when [processJobEnhanced] does, with the same
    value. *)
Theorem uploadJobs_as_processJobEnhanced {platform : Platform} {schemas : Schemas}
    (resumeId : option string) (log : list Request) :
  (∀ jobDescriptions,
     (Api.uploadJobs jobDescriptions resumeId log).2
     = log ++ ((λ d, Api.processJobEnhanced_request d resumeId) <$> jobDescriptions)) ∧
  Api.uploadJobs [] resumeId log = (inr [], log) ∧
  (∀ description v,
     outcome (Api.uploadJobs [description] resumeId) log = inr [v]
     ↔ outcome (Api.processJobEnhanced description resumeId) log = inr v).
Proof.
  split; [| split].
  - intros ds. rewrite uploadJobs_run. reflexivity.
  - rewrite uploadJobs_run. simpl. rewrite app_nil_r. reflexivity.
  - intros d v. unfold outcome.
    rewrite uploadJobs_run, (processJobEnhanced_one_call d resumeId log). cbn [fst].
    change (Api.processJobEnhanced_request d resumeId)
      with (Api.uploadJobs_request resumeId d).
    cbn [uploadOutcomes first_rejection]. unfold one_call_outcome, values.
    destruct (network (length log) (Api.uploadJobs_request resumeId d))
      as [e | response]; simpl; [split; discriminate |].
    destruct (ok response); simpl; [| split; discriminate].
    destruct (json_parse (text response)); simpl; split; congruence.
Qed.

(** X15: [uploadJobDescriptions] throws, on a non-success status, an error made
    of the status code alone: the body text is not part of it.  On success
    with an empty [job_id] array it returns undefined. *)
Theorem uploadJobDescriptions_edges {platform : Platform} {schemas : Schemas}
    (descriptions : list string) (resumeId : string) (log : list Request)
    (response : Response) :
  network (length log) (Api.uploadJobDescriptions_request descriptions resumeId)
    = inr response →
  (ok response = false →
     outcome (Api.uploadJobDescriptions descriptions resumeId) log
     = inl (Error ("Upload failed with status " +:+ pretty (status response)))) ∧
  (ok response = true → json_parse (T := list string) (text response) = Some [] →
     outcome (Api.uploadJobDescriptions descriptions resumeId) log = inr None).
Proof.
  intros Hreply.
  unfold outcome, Api.uploadJobDescriptions, fetch, response_json, throw,
    mbind, ST_bind, mret, ST_ret.
  rewrite Hreply. split.
  - intros ->. reflexivity.
  - intros -> Hparse. simpl. rewrite Hparse. reflexivity.
Qed.

(** A 500 with a long body is reported as the status alone. *)
Lemma uploadJobDescriptions_edges_sample :
  outcome (Api.uploadJobDescriptions
             (platform := Sample.platform [Sample.reply 500 "db connection refused"])
             (schemas := Sample.schemas) ["Backend engineer"] "r1") []
    = inl (Error "Upload failed with status 500").
Proof.
  apply (proj1 (uploadJobDescriptions_edges
           (platform := Sample.platform [Sample.reply 500 "db connection refused"])
           (schemas := Sample.schemas) ["Backend engineer"] "r1" []
           {| status := 500; text := "db connection refused" |} eq_refl)).
  reflexivity.
Defined.

(** ** Query parameters *)

Lemma searchJobs_fold {platform : Platform} (filters : list (string * Api.FilterValue)) :
  ∀ acc : list (string * string),
    foldl (λ queryParams '(key, value),
             match value with
             | Api.FUndefined | Api.FNull => queryParams
             | Api.FList items => queryParams ++ [(key, String.concat "," items)]
             | Api.FText s => queryParams ++ [(key, s)]
             | Api.FNum n => queryParams ++ [(key, Number_toString n)]
             end) acc filters
    = acc ++ omap (λ '(key, value),
                     match value with
                     | Api.FUndefined | Api.FNull => None
                     | Api.FList items => Some (key, String.concat "," items)
                     | Api.FText s => Some (key, s)
                     | Api.FNum n => Some (key, Number_toString n)
                     end) filters.
Proof.
  induction filters as [| [key value] filters IH]; intros acc; simpl.
  - rewrite app_nil_r. reflexivity.
  - rewrite IH. destruct value; simpl; try reflexivity;
      rewrite <- app_assoc; reflexivity.
Qed.

Lemma sent_params_length {platform : Platform} (filters : list (string * Api.FilterValue)) :
  length (omap (λ '(key, value),
                  match value with
                  | Api.FUndefined | Api.FNull => None
                  | Api.FList items => Some (key, String.concat "," items)
                  | Api.FText s => Some (key, s)
                  | Api.FNum n => Some (key, Number_toString n)
                  end) filters) = sentCount filters.
Proof.
  unfold sentCount.
  induction filters as [| [key value] filters IH]; simpl; [reflexivity |].
  destruct value; simpl; first [exact IH | f_equal; exact IH].
Qed.

Lemma sent_params_keys {platform : Platform} (filters : list (string * Api.FilterValue)) :
  (omap (λ '(key, value),
           match value with
           | Api.FUndefined | Api.FNull => None
           | Api.FList items => Some (key, String.concat "," items)
           | Api.FText s => Some (key, s)
           | Api.FNum n => Some (key, Number_toString n)
           end) filters).*1
  = (List.filter (λ kv, sent kv.2) filters).*1.
Proof.
  induction filters as [| [key value] filters IH]; simpl; [reflexivity |].
  destruct value; simpl; first [exact IH | f_equal; exact IH].
Qed.

(** X16: the query of [searchJobs] holds one parameter per filter that is neither
    undefined nor null, under the filter's key and in the order of the
    filter object, followed by page and per_page, which always come last; a
    list filter is sent as its items joined by commas and a text filter as
    it is. *)
Theorem searchJobs_params_spec {platform : Platform}
    (filters : list (string * Api.FilterValue)) (page perPage : number) :
  let params := Api.searchJobs_params filters page perPage in
  let n := sentCount filters in
  length params = (n + 2)%nat ∧
  drop n params = [("page", Number_toString page); ("per_page", Number_toString perPage)] ∧
  (take n params).*1 = (List.filter (λ kv, sent kv.2) filters).*1 ∧
  (∀ key items, (key, Api.FList items) ∈ filters →
     (key, String.concat "," items) ∈ take n params) ∧
  (∀ key s, (key, Api.FText s) ∈ filters → (key, s) ∈ take n params).
Proof.
  cbv zeta. unfold Api.searchJobs_params. rewrite searchJobs_fold, app_nil_l.
  set (sentParams := omap _ filters).
  assert (length sentParams = sentCount filters) as Hlen by apply sent_params_length.
  rewrite <- Hlen.
  rewrite drop_app_length, take_app_length.
  split; [rewrite length_app; reflexivity |].
  split; [reflexivity |].
  split; [apply sent_params_keys |].
  split.
  - intros key items Hin. apply list_elem_of_omap.
    exists (key, Api.FList items). split; [exact Hin | reflexivity].
  - intros key s Hin. apply list_elem_of_omap.
    exists (key, Api.FText s). split; [exact Hin | reflexivity].
Qed.

(** Three filters, one of them undefined: two parameters, then the paging. *)
Lemma searchJobs_params_spec_sample :
  let filters := [("skills", Api.FList ["rust"; "go"]);
                  ("company", Api.FUndefined);
                  ("location", Api.FText "Berlin")] in
  ("skills", "rust,go")
    ∈ take 2 (Api.searchJobs_params (platform := Sample.platform []) filters 1 20) ∧
  ("location", "Berlin")
    ∈ take 2 (Api.searchJobs_params (platform := Sample.platform []) filters 1 20).
Proof.
  intros filters.
  destruct (searchJobs_params_spec (platform := Sample.platform []) filters 1 20)
    as (_ & _ & _ & Hlist & Htext).
  split.
  - apply (Hlist "skills" ["rust"; "go"]). apply elem_of_cons. left. reflexivity.
  - apply (Htext "location" "Berlin").
    apply elem_of_cons. right. apply elem_of_cons. right.
    apply elem_of_cons. left. reflexivity.
Defined.

(** Settle whether a key is in a concrete list of keys, and with it an
    equivalence whose other side is a presence test. *)
Ltac key_sent :=
  match goal with
  | |- ?x ∈ ?l ↔ _ =>
      first
        [ assert (x ∈ l) by (apply (bool_decide_unpack _); vm_compute; exact I);
          split; [intros _; first [eexists; reflexivity
                                  | eexists; split; [reflexivity | assumption]]
                 | intros _; assumption]
        | assert (x ∉ l) by (apply (bool_decide_unpack _); vm_compute; exact I);
          split; [intros ?; contradiction |];
          let H := fresh in
          intros H; exfalso;
          first [ destruct H as (? & H1 & H2);
                  first [discriminate H1 | injection H1 as <-; congruence]
                | destruct H as [? H]; discriminate H ] ]
  end.

(** X17: the query of [getBulkAnalysis] is empty without a request object; with
    one, its keys are among job_ids, max_jobs and min_match_score in that
    order: job_ids is sent whenever the list is present, even empty, while
    max_jobs and min_match_score are sent only when present and neither 0
    nor NaN. *)
Theorem getBulkAnalysis_params_spec {platform : Platform} :
  Api.getBulkAnalysis_params None = [] ∧
  ∀ request : BulkMatchRequest,
    let params := Api.getBulkAnalysis_params (Some request) in
    params.*1 `sublist_of` ["job_ids"; "max_jobs"; "min_match_score"] ∧
    ("job_ids" ∈ params.*1 ↔ is_Some (job_ids request)) ∧
    ("max_jobs" ∈ params.*1 ↔ ∃ n, max_jobs request = Some n ∧ truthy n = true) ∧
    ("min_match_score" ∈ params.*1
     ↔ ∃ n, min_match_score request = Some n ∧ truthy n = true) ∧
    (job_ids request = Some [] → ("job_ids", "") ∈ params).
Proof.
  split; [reflexivity |]. intros request. cbv zeta.
  unfold Api.getBulkAnalysis_params. simpl.
  destruct (job_ids request) as [ids |];
    destruct (max_jobs request) as [mj |]; try destruct (truthy mj) eqn:Emj;
    destruct (min_match_score request) as [ms |]; try destruct (truthy ms) eqn:Ems;
    simpl;
    (split; [repeat first [apply sublist_nil | apply sublist_skip | apply sublist_cons] |]);
    repeat match goal with
    | |- (?x ∈ ?l ↔ ?Q) ∧ _ => split; [key_sent |]
    | |- (?x ∈ ?l ↔ ?Q) => key_sent
    end;
    first [discriminate | intros [= ->]; apply elem_of_cons; left; reflexivity].
Qed.

(** An empty identifier list is still sent, a zero limit is not. *)
Lemma getBulkAnalysis_params_spec_sample :
  let params := Api.getBulkAnalysis_params (platform := Sample.platform [])
    (Some {| bulk_resume_id := "r1"; job_ids := Some []; max_jobs := Some (Finite 0);
             min_match_score := None; include_detailed_analysis := None |})
  in ("job_ids", "") ∈ params ∧ params = [("job_ids", "")].
Proof.
  pose proof (proj2 (getBulkAnalysis_params_spec (platform := Sample.platform []))
                {| bulk_resume_id := "r1"; job_ids := Some []; max_jobs := Some (Finite 0);
                   min_match_score := None; include_detailed_analysis := None |})
    as (_ & _ & _ & _ & Hempty).
  cbv zeta in Hempty. specialize (Hempty eq_refl).
  split; [exact Hempty | reflexivity].
Defined.

(** ** The detail dialog of a job match *)

Lemma filter_take_prefix {A} (P : A → bool) (n : nat) (l : list A) :
  List.filter P (take n l) `prefix_of` List.filter P l.
Proof.
  exists (List.filter P (drop n l)).
  rewrite <- List.filter_app, take_drop. reflexivity.
Qed.

(** X18: the dialog lists the first min(10, n) matched keywords, or the note
    that none are available when the list is absent (an empty list is
    listed as such); it lists the first min(15, n) missing keywords and the
    first min(8, n) recommendations, and leaves either section out exactly
    when its list is absent or empty.  The priority-issue count of the card
    is taken over all recommendations, so it is at least the number of
    priority issues among the recommendations the dialog lists, and equal
    to it when there are at most 8 recommendations. *)
Theorem dialog_caps (matchResult : ResumeJobMatchResult) :
  let analysis := detailed_analysis matchResult in
  (matched_keywords analysis = None ↔
     JobMatchModal.matchedBox matchResult = JobMatchModal.NoMatchedKeywordsAvailable) ∧
  (∀ matched, matched_keywords analysis = Some matched →
     JobMatchModal.matchedBox matchResult = JobMatchModal.Keywords (take 10 matched) ∧
     length (take 10 matched) = (10 `min` length matched)%nat) ∧
  (JobMatchModal.missingSection matchResult = None
   ↔ missing_keywords analysis = None ∨ missing_keywords analysis = Some []) ∧
  (∀ missing, missing_keywords analysis = Some missing → missing ≠ [] →
     JobMatchModal.missingSection matchResult = Some (take 15 missing) ∧
     length (take 15 missing) = (15 `min` length missing)%nat ∧
     (1 ≤ length (take 15 missing))%nat) ∧
  (JobMatchModal.recommendationsSection matchResult = None
   ↔ recommendations matchResult = None ∨ recommendations matchResult = Some []) ∧
  (∀ rs, recommendations matchResult = Some rs → rs ≠ [] →
     JobMatchModal.recommendationsSection matchResult = Some (take 8 rs) ∧
     length (take 8 rs) = (8 `min` length rs)%nat ∧
     (1 ≤ length (take 8 rs))%nat ∧
     List.filter JobMatchCard.isPriority (take 8 rs)
       `prefix_of` JobMatchCard.prioritySuggestions matchResult ∧
     ((length rs ≤ 8)%nat →
      List.filter JobMatchCard.isPriority (take 8 rs)
        = JobMatchCard.prioritySuggestions matchResult)).
Proof.
  cbv zeta. unfold JobMatchModal.matchedBox, JobMatchModal.missingSection,
    JobMatchModal.recommendationsSection, JobMatchCard.prioritySuggestions.
  split; [| split; [| split; [| split; [| split]]]].
  - destruct (matched_keywords (detailed_analysis matchResult));
      split; intros; try discriminate; reflexivity.
  - intros matched ->. split; [reflexivity | apply length_take].
  - destruct (missing_keywords (detailed_analysis matchResult)) as [[| k ks] |]; simpl.
    + split; [intros _; right; reflexivity | reflexivity].
    + split; [discriminate | intros [? | ?]; discriminate].
    + split; [intros _; left; reflexivity | reflexivity].
  - intros missing -> Hne. destruct missing as [| k ks]; [congruence |].
    split; [reflexivity |]. rewrite length_take. simpl. split; lia.
  - destruct (recommendations matchResult) as [[| r rs] |]; simpl.
    + split; [intros _; right; reflexivity | reflexivity].
    + split; [discriminate | intros [? | ?]; discriminate].
    + split; [intros _; left; reflexivity | reflexivity].
  - intros rs -> Hne. destruct rs as [| r rs]; [congruence |].
    split; [reflexivity |].
    split; [apply length_take |].
    split; [rewrite length_take; simpl; lia |].
    cbn [default]. split; [apply filter_take_prefix |].
    intros Hle. rewrite take_ge by exact Hle. reflexivity.
Qed.

(** Nine recommendations of which only the ninth is critical: the card
    counts one priority issue, the dialog lists eight recommendations and
    none of them is one.  The one missing keyword of the sample is listed;
    a result without matched keywords shows the note. *)
Lemma dialog_caps_ninth_recommendation :
  let nine := Sample.result 72
                (Some (replicate 8 (Sample.advice low) ++ [Sample.advice critical])) in
  JobMatchCard.priorityIssues (JobMatchCard.header nine) = Some 1%nat ∧
  JobMatchModal.recommendationsSection nine = Some (replicate 8 (Sample.advice low)) ∧
  List.filter JobMatchCard.isPriority (replicate 8 (Sample.advice low))
    `prefix_of` JobMatchCard.prioritySuggestions nine ∧
  JobMatchModal.missingSection nine = Some ["rust"] ∧
  JobMatchModal.matchedBox nine = JobMatchModal.Keywords ["typescript"].
Proof.
  intros nine.
  pose proof (dialog_caps nine) as (_ & Hmatched & _ & Hmissing & _ & Hshown).
  destruct (Hshown (replicate 8 (Sample.advice low) ++ [Sample.advice critical]) eq_refl)
    as (Hsection & _ & _ & Hprefix & _); [discriminate |].
  split; [reflexivity |]. split; [exact Hsection |]. split; [exact Hprefix |].
  split.
  - apply (Hmissing ["rust"] eq_refl). discriminate.
  - apply (Hmatched ["typescript"] eq_refl).
Defined.

(** One description answered 200: both calls return the same response. *)
Lemma uploadJobs_as_processJobEnhanced_sample :
  outcome (Api.uploadJobs (platform := Sample.platform [Sample.reply 200 "a"])
             (schemas := Sample.schemas) ["Backend engineer"] (Some "r1")) []
    = inr ["a"] ∧
  outcome (Api.processJobEnhanced (platform := Sample.platform [Sample.reply 200 "a"])
             (schemas := Sample.schemas) "Backend engineer" (Some "r1")) []
    = inr "a".
Proof.
  assert (outcome (Api.uploadJobs (platform := Sample.platform [Sample.reply 200 "a"])
             (schemas := Sample.schemas) ["Backend engineer"] (Some "r1")) []
          = inr ["a"]) as E by (vm_compute; reflexivity).
  split; [exact E |].
  apply (proj2 (proj2 (uploadJobs_as_processJobEnhanced
           (platform := Sample.platform [Sample.reply 200 "a"])
           (schemas := Sample.schemas) (Some "r1") []))).
  exact E.
Defined.

(** ** A higher score is never shown worse *)

Ltac finite_thresholds :=
  repeat match goal with
  | |- context [js_ge (Finite ?x) (Finite ?t)] =>
      let E := fresh "E" in
      destruct (js_ge (Finite x) (Finite t)) eqn:E;
      [apply js_ge_Finite in E | apply js_ge_Finite_false in E]
  end.

(** X19: of two finite scores the higher one never gets a lower colour band or a
    lower label than the other, in either component. *)
Theorem presentation_monotone (a b : Q) :
  (a <= b)%Q →
  (bandRank (band (ResumeAnalysis.getScoreColor a))
     ≤ bandRank (band (ResumeAnalysis.getScoreColor b)))%nat ∧
  (labelRank (ResumeAnalysis.getScoreText a)
     ≤ labelRank (ResumeAnalysis.getScoreText b))%nat ∧
  (bandRank (band (JobMatchCard.getMatchBadgeColor a))
     ≤ bandRank (band (JobMatchCard.getMatchBadgeColor b)))%nat ∧
  (labelRank (JobMatchCard.getMatchText a)
     ≤ labelRank (JobMatchCard.getMatchText b))%nat.
Proof.
  intros Hab.
  unfold ResumeAnalysis.getScoreColor, ResumeAnalysis.getScoreText,
    JobMatchCard.getMatchBadgeColor, JobMatchCard.getMatchText.
  finite_thresholds;
    first [exfalso; lra | repeat split; vm_compute; lia].
Qed.

(** 72 against 91: yellow and Good against green and Excellent. *)
Lemma presentation_monotone_sample :
  (bandRank (band (ResumeAnalysis.getScoreColor 72))
     ≤ bandRank (band (ResumeAnalysis.getScoreColor 91)))%nat ∧
  (labelRank (JobMatchCard.getMatchText 72)
     ≤ labelRank (JobMatchCard.getMatchText 91))%nat.
Proof.
  destruct (presentation_monotone 72 91) as (Hc & _ & _ & Hl); [lra |].
  split; [exact Hc | exact Hl].
Defined.
